(** * Child-process supervision: content/browser/browser_child_process_host.cc

    A shallow embedding of [BrowserChildProcessHost] (the "Supervisor" of the
    specification), of the process-wide list [g_child_process_list] (the
    "Registry") and of every method that mutates either, followed by the
    properties of the specification.

    The program is single-threaded as far as this file is concerned: every
    method below runs on the IO thread (the source asserts it with
    [DCHECK(BrowserThread::CurrentlyOn(BrowserThread::IO))]), and what is sent
    to the UI thread is recorded as an effect in a trace.  Objects live in a
    heap indexed by their address; [delete this] frees the address, and a call
    through a pointer that is not live aborts the execution.  The delegate,
    the channel, the launch helper and the operating system are opaque: the
    calls made on them are recorded, their answers are arguments of the
    methods, and what they do in return shows up as further calls of the
    execution.  The accessors [GetHost] and [GetHandle], which change
    nothing, are left out. *)

From stdpp Require Import gmap strings list fin_maps.
From Stdlib Require Import ZArith Lia.

(** ** Data model *)

Abbreviation ptr := nat.
Abbreviation ProcessHandle := Z.
Abbreviation ProcessType := Z.
Abbreviation CommandLine := (list string).
Abbreviation Message := string.

Definition kNullProcessHandle : ProcessHandle := 0%Z.

(** Windows' [STILL_ACTIVE]; the comment above [OnWaitableEventSignaled]
    gives its value, 0x103. *)
Definition STILL_ACTIVE : Z := 259%Z.

(** What the preprocessor and headers of other directories fix: the
    platform ([#if defined(OS_WIN)], [#elif defined(OS_POSIX)]), whether
    [DCHECK]s are compiled in, and the enumerator [content::PROCESS_TYPE_MAX]
    used as histogram boundary. *)
Record Platform := {
  OS_WIN : bool;
  OS_POSIX : bool;
  DCHECK_IS_ON : bool;
  PROCESS_TYPE_MAX : Z
}.

(** Modelled from the spec: [base::TerminationStatus] is declared in
    base/process_util.h, which is not among the sources covered here.  The four
    enumerators named by the [case] labels of [OnChildDisconnected] are taken
    from the code; "exited normally" is the remaining status of the
    specification's termination-status list. *)
Inductive TerminationStatus :=
  | TERMINATION_STATUS_NORMAL_TERMINATION
  | TERMINATION_STATUS_ABNORMAL_TERMINATION
  | TERMINATION_STATUS_PROCESS_WAS_KILLED
  | TERMINATION_STATUS_PROCESS_CRASHED
  | TERMINATION_STATUS_STILL_RUNNING.

Inductive NotificationType :=
  | NOTIFICATION_CHILD_PROCESS_HOST_CONNECTED
  | NOTIFICATION_CHILD_PROCESS_CRASHED
  | NOTIFICATION_CHILD_PROCESS_HOST_DISCONNECTED.

(** [content::ChildProcessData]: the ProcessDescriptor. *)
Module ChildProcessData.
Record t := Build {
  type : ProcessType;
  name : string;
  id : Z;
  handle : ProcessHandle
}.
(** [ChildProcessData(type)]: no name, no id, no handle yet. *)
Definition make (ty : ProcessType) : t :=
  {| type := ty; name := ""; id := 0%Z; handle := kNullProcessHandle |}.
Definition with_id (d : t) (i : Z) : t :=
  {| type := type d; name := name d; id := i; handle := handle d |}.
Definition with_name (d : t) (n : string) : t :=
  {| type := type d; name := n; id := id d; handle := handle d |}.
Definition with_handle (d : t) (h : ProcessHandle) : t :=
  {| type := type d; name := name d; id := id d; handle := h |}.
End ChildProcessData.

Inductive MessageFilter := TraceMessageFilter | ProfilerMessageFilter.

(** The channel owned by the host ([child_process_host_]). *)
Record ChildProcessHost := { filters : list MessageFilter }.

(** The launch helper ([child_process_]), present only after [Launch]. *)
Record ChildProcessLauncher := { launch_cmd_line : CommandLine }.

Record BrowserChildProcessHost := {
  data_ : ChildProcessData.t;
  delegate_ : ptr;
  child_process_host_ : ChildProcessHost;
  child_process_ : option ChildProcessLauncher;
  disconnect_was_alive_ : bool
}.

Definition set_data (h : BrowserChildProcessHost) (d : ChildProcessData.t) :=
  {| data_ := d; delegate_ := delegate_ h;
     child_process_host_ := child_process_host_ h;
     child_process_ := child_process_ h;
     disconnect_was_alive_ := disconnect_was_alive_ h |}.

Definition set_child_process (h : BrowserChildProcessHost)
    (l : ChildProcessLauncher) :=
  {| data_ := data_ h; delegate_ := delegate_ h;
     child_process_host_ := child_process_host_ h;
     child_process_ := Some l;
     disconnect_was_alive_ := disconnect_was_alive_ h |}.

Definition set_disconnect_was_alive (h : BrowserChildProcessHost) (b : bool) :=
  {| data_ := data_ h; delegate_ := delegate_ h;
     child_process_host_ := child_process_host_ h;
     child_process_ := child_process_ h;
     disconnect_was_alive_ := b |}.

(** ** Effects on the collaborators

    Every call a host makes on something it does not own the code of is
    recorded: tasks posted to the UI thread, calls on the delegate, UMA
    samples, the scheduled re-check ([StartWatching] on the wait-object, or
    the delayed task bound to [OnChildDisconnected] through a weak pointer),
    calls on the content client, the channel and the launcher.  [Destroyed]
    marks the run of the destructor. *)

Inductive DelegateCall :=
  | Delegate_OnMessageReceived (message : Message)
  | Delegate_OnChannelConnected (peer_pid : Z)
  | Delegate_OnChannelError
  | Delegate_CanShutdown
  | Delegate_OnProcessCrashed (exit_code : Z)
  | Delegate_OnProcessLaunched.

Inductive Effect :=
  | PostNotification (type : NotificationType) (data : ChildProcessData.t)
  | CallDelegate (delegate : ptr) (call : DelegateCall)
  | Histogram (name : string) (sample boundary : Z)
  | StartWatching (handle : ProcessHandle)
  | PostDelayedTask (delay_ms : Z)
  | AppendExtraCommandLineSwitches (cmd_line : CommandLine) (child_id : Z)
  | ChannelTakeClientFileDescriptor
  | ChannelForceShutdown
  | ChannelSend (message : Message)
  | LauncherSetTerminateChildOnShutdown (terminate_on_shutdown : bool)
  | Destroyed.

(** An effect together with the object that caused it: its address and the
    unique id of its descriptor. *)
Record Event := {
  ev_this : ptr;
  ev_id : Z;
  ev_effect : Effect
}.

(** ** Program state *)

Record System := {
  heap : gmap nat BrowserChildProcessHost;
  g_child_process_list : list nat;
  last_unique_child_id : Z;
  trace : list Event
}.

Definition initial : System :=
  {| heap := ∅; g_child_process_list := []; last_unique_child_id := 0%Z;
     trace := [] |}.

(** ** A state and abort monad *)

Inductive Abort :=
  | DCHECK_FAILURE
  | INVALID_POINTER
  | NULL_DEREFERENCE
  | ADDRESS_IN_USE.

Inductive Result (A : Type) :=
  | Ok (a : A)
  | Aborted (why : Abort).
Arguments Ok {A} a.
Arguments Aborted {A} why.

Definition M (A : Type) : Type := System → Result (A * System).

#[global] Instance M_ret : MRet M := λ A a s, Ok (a, s).
#[global] Instance M_bind : MBind M := λ A B f m s,
  match m s with
  | Ok (a, s') => f a s'
  | Aborted why => Aborted why
  end.

Definition abort {A} (why : Abort) : M A := λ _, Aborted why.

Definition exec (m : M ()) (s : System) : Result System :=
  match m s with
  | Ok (_, s') => Ok s'
  | Aborted why => Aborted why
  end.

(** [*this]: the object must be live. *)
Definition deref (this : ptr) : M BrowserChildProcessHost := λ s,
  match heap s !! this with
  | Some h => Ok (h, s)
  | None => Aborted INVALID_POINTER
  end.

Definition store (this : ptr) (h : BrowserChildProcessHost) : M () := λ s,
  Ok ((), {| heap := <[this := h]> (heap s);
             g_child_process_list := g_child_process_list s;
             last_unique_child_id := last_unique_child_id s;
             trace := trace s |}).

Definition free (this : ptr) : M () := λ s,
  Ok ((), {| heap := delete this (heap s);
             g_child_process_list := g_child_process_list s;
             last_unique_child_id := last_unique_child_id s;
             trace := trace s |}).

Definition record (e : Event) : M () := λ s,
  Ok ((), {| heap := heap s;
             g_child_process_list := g_child_process_list s;
             last_unique_child_id := last_unique_child_id s;
             trace := trace s ++ [e] |}).

(** An effect caused by the live object [this]. *)
Definition emit (this : ptr) (eff : Effect) : M () :=
  h ← deref this;
  record {| ev_this := this; ev_id := ChildProcessData.id (data_ h);
            ev_effect := eff |}.

(** [g_child_process_list.Get().push_back(p)] *)
Definition list_push_back (p : ptr) : M () := λ s,
  Ok ((), {| heap := heap s;
             g_child_process_list := g_child_process_list s ++ [p];
             last_unique_child_id := last_unique_child_id s;
             trace := trace s |}).

(** [g_child_process_list.Get().remove(p)]: [std::list::remove] erases every
    element equal to [p]. *)
Definition list_remove (p : ptr) : M () := λ s,
  Ok ((), {| heap := heap s;
             g_child_process_list := filter (λ q, q ≠ p) (g_child_process_list s);
             last_unique_child_id := last_unique_child_id s;
             trace := trace s |}).

(** Modelled from the spec: [ChildProcessHostImpl::GenerateChildProcessUniqueId]
    is defined in content/common, not covered here; the specification asks
    for "a process-wide unique integer id (assigned at construction, never
    reused)", here the next value of a counter. *)
Definition GenerateChildProcessUniqueId : M Z := λ s,
  let i := (last_unique_child_id s + 1)%Z in
  Ok (i, {| heap := heap s;
            g_child_process_list := g_child_process_list s;
            last_unique_child_id := i;
            trace := trace s |}).

(** [GetIterator()]: the registry as it is enumerated. *)
Definition GetIterator (s : System) : list ptr := g_child_process_list s.

(** ** The methods of BrowserChildProcessHost *)

Section Methods.
Variable platform : Platform.

(** [DCHECK(cond)]: aborts when assertions are compiled in and [cond] is
    false, and does nothing otherwise. *)
Definition DCHECK (cond : bool) : M () :=
  if DCHECK_IS_ON platform && negb cond then abort DCHECK_FAILURE
  else mret ().

(** [BrowserChildProcessHost::~BrowserChildProcessHost] followed by the
    release of the storage: what [delete p] does. *)
Definition delete_ (this : ptr) : M () :=
  _ ← deref this;
  list_remove this;;
  emit this Destroyed;;
  free this.

(** The constructor, run by [content::BrowserChildProcessHost::Create] on
    the storage [this] that [new] hands out; [new] never hands out the
    address of a live object. *)
Definition Create (this : ptr) (type : ProcessType) (delegate : ptr) : M ptr :=
  λ s,
  match heap s !! this with
  | Some _ => Aborted ADDRESS_IN_USE
  | None =>
    (i ← GenerateChildProcessUniqueId;
     store this
       {| data_ := ChildProcessData.with_id (ChildProcessData.make type) i;
          delegate_ := delegate;
          child_process_host_ :=
            {| filters := [TraceMessageFilter; ProfilerMessageFilter] |};
          child_process_ := None;
          disconnect_was_alive_ := false |};;
     list_push_back this;;
     mret this) s
  end.

(** Modelled from the spec: [STLDeleteElements] is defined in
    base/stl_util.h, not covered here; per the specification [TerminateAll]
    "iterates the
    snapshot and force-destroys every entry", so it deletes the elements of
    the container front to back (and then clears the container, which is
    local to the caller). *)
Fixpoint STLDeleteElements (container : list ptr) : M () :=
  match container with
  | [] => mret ()
  | p :: rest => delete_ p;; STLDeleteElements rest
  end.

Definition TerminateAll : M () := λ s,
  let copy := g_child_process_list s in
  STLDeleteElements copy s.

(** [cmd_line] is handed to the content client, then to a new launch helper
    that replaces the one [child_process_] held (on POSIX together with the
    channel's client file descriptor).  The launch itself is the helper's
    business; it reports back through [OnProcessLaunched]. *)
Definition Launch (this : ptr) (cmd_line : CommandLine) : M () :=
  h ← deref this;
  emit this
    (AppendExtraCommandLineSwitches cmd_line (ChildProcessData.id (data_ h)));;
  (if OS_WIN platform then mret ()
   else if OS_POSIX platform then emit this ChannelTakeClientFileDescriptor
   else mret ());;
  store this (set_child_process h {| launch_cmd_line := cmd_line |}).

Definition GetData (this : ptr) : M ChildProcessData.t :=
  h ← deref this; mret (data_ h).

Definition SetName (this : ptr) (name : string) : M () :=
  h ← deref this;
  store this (set_data h (ChildProcessData.with_name (data_ h) name)).

Definition SetHandle (this : ptr) (handle : ProcessHandle) : M () :=
  h ← deref this;
  store this (set_data h (ChildProcessData.with_handle (data_ h) handle)).

Definition ForceShutdown (this : ptr) : M () :=
  _ ← deref this;
  list_remove this;;
  emit this ChannelForceShutdown.

Definition SetTerminateChildOnShutdown (this : ptr)
    (terminate_on_shutdown : bool) : M () :=
  h ← deref this;
  match child_process_ h with
  | None => abort NULL_DEREFERENCE
  | Some _ =>
    emit this (LauncherSetTerminateChildOnShutdown terminate_on_shutdown)
  end.

(** Posts [ChildNotificationHelper(type, data_)] to the UI thread; [data_]
    is bound by value, so the task carries the descriptor as it is now. *)
Definition Notify (this : ptr) (type : NotificationType) : M () :=
  h ← deref this;
  emit this (PostNotification type (data_ h)).

Definition UMA_HISTOGRAM_ENUMERATION (this : ptr) (name : string)
    (sample boundary : Z) : M () :=
  emit this (Histogram name sample boundary).

Definition call_delegate (this : ptr) (call : DelegateCall) : M () :=
  h ← deref this;
  emit this (CallDelegate (delegate_ h) call).

(** What the operating system (no launch helper) and the launch helper
    answer when asked for the termination status and exit code. *)
Record ExitInfo := {
  base_GetTerminationStatus : ProcessHandle → TerminationStatus * Z;
  GetChildTerminationStatus : TerminationStatus * Z
}.

Definition GetTerminationStatus (h : BrowserChildProcessHost)
    (os : ExitInfo) : TerminationStatus * Z :=
  match child_process_ h with
  | None => base_GetTerminationStatus os (ChildProcessData.handle (data_ h))
  | Some _ => GetChildTerminationStatus os
  end.

Definition OnMessageReceived (this : ptr) (message : Message) : M () :=
  call_delegate this (Delegate_OnMessageReceived message).

Definition OnChannelConnected (this : ptr) (peer_pid : Z) : M () :=
  Notify this NOTIFICATION_CHILD_PROCESS_HOST_CONNECTED;;
  call_delegate this (Delegate_OnChannelConnected peer_pid).

Definition OnChannelError (this : ptr) : M () :=
  call_delegate this Delegate_OnChannelError.

Definition CanShutdown (this : ptr) : M () :=
  call_delegate this Delegate_CanShutdown.

Definition kExitCodeWaitMs : Z := 250%Z.

(** The statements after the [switch] of [OnChildDisconnected]. *)
Definition disconnected_and_delete (this : ptr) : M () :=
  h ← deref this;
  UMA_HISTOGRAM_ENUMERATION this "ChildProcess.Disconnected"
    (ChildProcessData.type (data_ h)) (PROCESS_TYPE_MAX platform);;
  Notify this NOTIFICATION_CHILD_PROCESS_HOST_DISCONNECTED;;
  delete_ this.

Definition OnChildDisconnected (this : ptr) (os : ExitInfo) : M () :=
  h ← deref this;
  DCHECK (negb (ChildProcessData.handle (data_ h) =? kNullProcessHandle)%Z);;
  let '(status, exit_code) := GetTerminationStatus h os in
  let type := ChildProcessData.type (data_ h) in
  match status with
  | TERMINATION_STATUS_PROCESS_CRASHED
  | TERMINATION_STATUS_ABNORMAL_TERMINATION =>
    call_delegate this (Delegate_OnProcessCrashed exit_code);;
    Notify this NOTIFICATION_CHILD_PROCESS_CRASHED;;
    UMA_HISTOGRAM_ENUMERATION this "ChildProcess.Crashed" type
      (PROCESS_TYPE_MAX platform);;
    (if disconnect_was_alive_ h
     then UMA_HISTOGRAM_ENUMERATION this "ChildProcess.CrashedWasAlive" type
            (PROCESS_TYPE_MAX platform)
     else mret ());;
    disconnected_and_delete this
  | TERMINATION_STATUS_PROCESS_WAS_KILLED =>
    UMA_HISTOGRAM_ENUMERATION this "ChildProcess.Killed" type
      (PROCESS_TYPE_MAX platform);;
    (if disconnect_was_alive_ h
     then UMA_HISTOGRAM_ENUMERATION this "ChildProcess.KilledWasAlive" type
            (PROCESS_TYPE_MAX platform)
     else mret ());;
    disconnected_and_delete this
  | TERMINATION_STATUS_STILL_RUNNING =>
    if disconnect_was_alive_ h
    then
      UMA_HISTOGRAM_ENUMERATION this "ChildProcess.DisconnectedAlive" type
        (PROCESS_TYPE_MAX platform);;
      disconnected_and_delete this
    else
      store this (set_disconnect_was_alive h true);;
      (if OS_WIN platform
       then emit this (StartWatching (ChildProcessData.handle (data_ h)))
       else emit this (PostDelayedTask kExitCodeWaitMs))
  | _ => disconnected_and_delete this
  end.

(** [exit_code] is what [GetExitCodeProcess] stores for the watched
    handle.  The body is compiled on Windows only. *)
Definition OnWaitableEventSignaled (this : ptr) (exit_code : Z)
    (os : ExitInfo) : M () :=
  if OS_WIN platform
  then
    if (exit_code =? STILL_ACTIVE)%Z
    then delete_ this
    else OnChildDisconnected this os
  else mret ().

Definition Send (this : ptr) (message : Message) : M () :=
  emit this (ChannelSend message).

Definition ShutdownStarted (this : ptr) : M () :=
  _ ← deref this;
  list_remove this.

(** [launcher_handle] is what [child_process_->GetHandle()] returns. *)
Definition OnProcessLaunched (this : ptr) (launcher_handle : ProcessHandle)
    : M () :=
  h ← deref this;
  match child_process_ h with
  | None => abort NULL_DEREFERENCE
  | Some _ =>
    if (launcher_handle =? kNullProcessHandle)%Z
    then delete_ this
    else
      store this
        (set_data h (ChildProcessData.with_handle (data_ h) launcher_handle));;
      call_delegate this Delegate_OnProcessLaunched
  end.

(** ** Executions: sequences of calls made on the IO thread *)

Inductive Call :=
  | Call_Create (this : ptr) (type : ProcessType) (delegate : ptr)
  | Call_delete (this : ptr)
  | Call_TerminateAll
  | Call_Launch (this : ptr) (cmd_line : CommandLine)
  | Call_SetName (this : ptr) (name : string)
  | Call_SetHandle (this : ptr) (handle : ProcessHandle)
  | Call_ForceShutdown (this : ptr)
  | Call_SetTerminateChildOnShutdown (this : ptr) (b : bool)
  | Call_OnMessageReceived (this : ptr) (message : Message)
  | Call_OnChannelConnected (this : ptr) (peer_pid : Z)
  | Call_OnChannelError (this : ptr)
  | Call_CanShutdown (this : ptr)
  | Call_OnChildDisconnected (this : ptr) (os : ExitInfo)
  | Call_OnWaitableEventSignaled (this : ptr) (exit_code : Z) (os : ExitInfo)
  | Call_Send (this : ptr) (message : Message)
  | Call_ShutdownStarted (this : ptr)
  | Call_OnProcessLaunched (this : ptr) (launcher_handle : ProcessHandle).

Definition perform (c : Call) : M () :=
  match c with
  | Call_Create this type delegate => _ ← Create this type delegate; mret ()
  | Call_delete this => delete_ this
  | Call_TerminateAll => TerminateAll
  | Call_Launch this cmd_line => Launch this cmd_line
  | Call_SetName this name => SetName this name
  | Call_SetHandle this handle => SetHandle this handle
  | Call_ForceShutdown this => ForceShutdown this
  | Call_SetTerminateChildOnShutdown this b =>
    SetTerminateChildOnShutdown this b
  | Call_OnMessageReceived this message => OnMessageReceived this message
  | Call_OnChannelConnected this peer_pid => OnChannelConnected this peer_pid
  | Call_OnChannelError this => OnChannelError this
  | Call_CanShutdown this => CanShutdown this
  | Call_OnChildDisconnected this os => OnChildDisconnected this os
  | Call_OnWaitableEventSignaled this exit_code os =>
    OnWaitableEventSignaled this exit_code os
  | Call_Send this message => Send this message
  | Call_ShutdownStarted this => ShutdownStarted this
  | Call_OnProcessLaunched this h => OnProcessLaunched this h
  end.

(** The object a call is made on; [Create] and the static [TerminateAll]
    have none. *)
Definition receiver (c : Call) : option ptr :=
  match c with
  | Call_Create _ _ _ | Call_TerminateAll => None
  | Call_delete this | Call_Launch this _ | Call_SetName this _
  | Call_SetHandle this _ | Call_ForceShutdown this
  | Call_SetTerminateChildOnShutdown this _ | Call_OnMessageReceived this _
  | Call_OnChannelConnected this _ | Call_OnChannelError this
  | Call_CanShutdown this | Call_OnChildDisconnected this _
  | Call_OnWaitableEventSignaled this _ _ | Call_Send this _
  | Call_ShutdownStarted this | Call_OnProcessLaunched this _ => Some this
  end.

(** One call: a method is called through a pointer to a live object. *)
Definition step (c : Call) (s : System) : Result System :=
  match receiver c with
  | Some this => exec (_ ← deref this; perform c) s
  | None => exec (perform c) s
  end.

Fixpoint run (calls : list Call) (s : System) : Result System :=
  match calls with
  | [] => Ok s
  | c :: rest =>
    match step c s with
    | Ok s' => run rest s'
    | Aborted why => Aborted why
    end
  end.

End Methods.

(** ** Observations on traces *)

#[global] Instance NotificationType_eq_dec : EqDecision NotificationType.
Proof. solve_decision. Defined.

(** The event by which the live object [h] at [this] causes [eff]. *)
Definition event_of (this : ptr) (h : BrowserChildProcessHost) (eff : Effect)
    : Event :=
  {| ev_this := this; ev_id := ChildProcessData.id (data_ h);
     ev_effect := eff |}.

(** Everything the supervisor with unique id [i] has caused, oldest first. *)
Definition history (i : Z) (tr : list Event) : list Effect :=
  ev_effect <$> filter (λ e, ev_id e = i) tr.

Definition count {A} (f : A → bool) (l : list A) : nat :=
  length (List.filter f l).

Definition is_notification (ty : NotificationType) (eff : Effect) : bool :=
  match eff with
  | PostNotification ty' _ => bool_decide (ty' = ty)
  | _ => false
  end.

(** The terminal notification. *)
Definition is_disconnected (eff : Effect) : bool :=
  is_notification NOTIFICATION_CHILD_PROCESS_HOST_DISCONNECTED eff.

Definition is_any_notification (eff : Effect) : bool :=
  match eff with
  | PostNotification _ _ => true
  | _ => false
  end.

(** A sample of the histogram [name] in the bucket of process kind [kind]. *)
Definition is_sample (name : string) (kind : ProcessType) (eff : Effect)
    : bool :=
  match eff with
  | Histogram n k _ => String.eqb n name && (k =? kind)%Z
  | _ => false
  end.

Definition is_crash_callback (eff : Effect) : bool :=
  match eff with
  | CallDelegate _ (Delegate_OnProcessCrashed _) => true
  | _ => false
  end.

Definition is_launched_callback (eff : Effect) : bool :=
  match eff with
  | CallDelegate _ Delegate_OnProcessLaunched => true
  | _ => false
  end.

(** The scheduled re-check of the termination status. *)
Definition is_recheck (eff : Effect) : bool :=
  match eff with
  | StartWatching _ | PostDelayedTask _ => true
  | _ => false
  end.

Definition is_destroyed (eff : Effect) : bool :=
  match eff with
  | Destroyed => true
  | _ => false
  end.

(** The per-kind counters of the metrics surface, over all supervisors. *)
Definition counter (name : string) (kind : ProcessType) (s : System) : nat :=
  count (is_sample name kind) (ev_effect <$> trace s).

Definition crash_callbacks (s : System) : nat :=
  count is_crash_callback (ev_effect <$> trace s).

Definition launched_callbacks (s : System) : nat :=
  count is_launched_callback (ev_effect <$> trace s).

(** How many notifications of type [ty] have been posted. *)
Definition posted (ty : NotificationType) (s : System) : nat :=
  count (is_notification ty) (ev_effect <$> trace s).

Definition is_live (s : System) (this : ptr) : Prop :=
  is_Some (heap s !! this).

(** No live object carries the unique id [i]. *)
Definition no_longer_live (s : System) (i : Z) : Prop :=
  ∀ this h, heap s !! this = Some h → ChildProcessData.id (data_ h) ≠ i.

(** The object the constructor builds for the unique id [i]. *)
Definition constructed (type : ProcessType) (delegate : ptr) (i : Z)
    : BrowserChildProcessHost :=
  {| data_ := ChildProcessData.with_id (ChildProcessData.make type) i;
     delegate_ := delegate;
     child_process_host_ :=
       {| filters := [TraceMessageFilter; ProfilerMessageFilter] |};
     child_process_ := None;
     disconnect_was_alive_ := false |}.

(** The state after the constructor has run on the storage [this]. *)
Definition created (s : System) (this : ptr) (type : ProcessType)
    (delegate : ptr) : System :=
  {| heap := <[this := constructed type delegate
                         (last_unique_child_id s + 1)]> (heap s);
     g_child_process_list := g_child_process_list s ++ [this];
     last_unique_child_id := (last_unique_child_id s + 1)%Z;
     trace := trace s |}.

(** ** What one call of a method leaves behind *)

Section Outcomes.
Variable platform : Platform.

(** What the [DCHECK] at the top of [OnChildDisconnected] asks of [h]. *)
Definition dcheck_handle (h : BrowserChildProcessHost) : Prop :=
  DCHECK_IS_ON platform = true →
  ChildProcessData.handle (data_ h) ≠ kNullProcessHandle.

(** The state in which [this] has caused [effs] and nothing else changed. *)
Definition after_effects (s : System) (this : ptr)
    (h : BrowserChildProcessHost) (effs : list Effect) : System :=
  {| heap := heap s;
     g_child_process_list := g_child_process_list s;
     last_unique_child_id := last_unique_child_id s;
     trace := trace s ++ (event_of this h <$> effs) |}.

(** The state in which [this] is replaced by [h'] after causing [effs]. *)
Definition updated_after (s : System) (this : ptr)
    (h h' : BrowserChildProcessHost) (effs : list Effect) : System :=
  {| heap := <[this := h']> (heap s);
     g_child_process_list := g_child_process_list s;
     last_unique_child_id := last_unique_child_id s;
     trace := trace s ++ (event_of this h <$> effs) |}.

(** The state in which [this] left the registry after causing [effs]. *)
Definition unlisted_after (s : System) (this : ptr)
    (h : BrowserChildProcessHost) (effs : list Effect) : System :=
  {| heap := heap s;
     g_child_process_list := filter (λ q, q ≠ this) (g_child_process_list s);
     last_unique_child_id := last_unique_child_id s;
     trace := trace s ++ (event_of this h <$> effs) |}.

(** The state left by [delete this] after the effects [effs] of [this]. *)
Definition deleted_after (s : System) (this : ptr)
    (h : BrowserChildProcessHost) (effs : list Effect) : System :=
  {| heap := delete this (heap s);
     g_child_process_list := filter (λ q, q ≠ this) (g_child_process_list s);
     last_unique_child_id := last_unique_child_id s;
     trace := trace s ++ (event_of this h <$> effs ++ [Destroyed]) |}.

Definition sample (h : BrowserChildProcessHost) (name : string) : Effect :=
  Histogram name (ChildProcessData.type (data_ h)) (PROCESS_TYPE_MAX platform).

Definition was_alive_sample (h : BrowserChildProcessHost) (name : string)
    : list Effect :=
  if disconnect_was_alive_ h then [sample h name] else [].

Definition terminal_effects (h : BrowserChildProcessHost) : list Effect :=
  [sample h "ChildProcess.Disconnected";
   PostNotification NOTIFICATION_CHILD_PROCESS_HOST_DISCONNECTED (data_ h)].

Definition launch_effects (h : BrowserChildProcessHost)
    (cmd_line : CommandLine) : list Effect :=
  AppendExtraCommandLineSwitches cmd_line (ChildProcessData.id (data_ h))
  :: (if OS_WIN platform then []
      else if OS_POSIX platform then [ChannelTakeClientFileDescriptor]
      else []).

Definition recheck_effect (h : BrowserChildProcessHost) : Effect :=
  if OS_WIN platform
  then StartWatching (ChildProcessData.handle (data_ h))
  else PostDelayedTask kExitCodeWaitMs.

(** The call runs [OnChildDisconnected] on [this] (directly, or from the
    wait-object callback on Windows), and the status it gets for [h] is
    "still running". *)
Definition observes_still_running (c : Call) (this : ptr)
    (h : BrowserChildProcessHost) : Prop :=
  match c with
  | Call_OnChildDisconnected p os =>
    p = this ∧ (GetTerminationStatus h os).1 = TERMINATION_STATUS_STILL_RUNNING
  | Call_OnWaitableEventSignaled p exit_code os =>
    p = this ∧ OS_WIN platform = true ∧ exit_code ≠ STILL_ACTIVE
    ∧ (GetTerminationStatus h os).1 = TERMINATION_STATUS_STILL_RUNNING
  | _ => False
  end.

(** The handle the call writes into the descriptor of [this], if any. *)
Definition writes_handle (c : Call) (this : ptr) : option ProcessHandle :=
  match c with
  | Call_SetHandle p handle =>
    if decide (p = this) then Some handle else None
  | Call_OnProcessLaunched p launcher_handle =>
    if decide (p = this)
    then (if (launcher_handle =? kNullProcessHandle)%Z then None
          else Some launcher_handle)
    else None
  | _ => None
  end.

(** The handle in the descriptor of [this] after the call, when the object
    [h] is still there. *)
Definition handle_left (c : Call) (this : ptr) (h : BrowserChildProcessHost)
    : ProcessHandle :=
  default (ChildProcessData.handle (data_ h)) (writes_handle c this).

End Outcomes.

(** ** The life cycle of one supervisor

    A monitor over the history of one supervisor: alive (with the value of
    [disconnect_was_alive_]), disconnected (the terminal notification is
    posted, the destructor has not run yet), gone.  [advance] refuses what the
    life cycle forbids: a second re-check, anything but the destructor after
    the terminal notification, anything at all after the destructor. *)

Inductive Phase :=
  | Alive (was_alive : bool)
  | Disconnected
  | Gone.

Definition advance (ph : Phase) (eff : Effect) : option Phase :=
  match ph with
  | Alive was_alive =>
    if is_recheck eff then (if was_alive then None else Some (Alive true))
    else if is_disconnected eff then Some Disconnected
    else if is_destroyed eff then Some Gone
    else Some (Alive was_alive)
  | Disconnected => if is_destroyed eff then Some Gone else None
  | Gone => None
  end.

Fixpoint lifecycle (ph : Phase) (effs : list Effect) : option Phase :=
  match effs with
  | [] => Some ph
  | eff :: rest =>
    match advance ph eff with
    | Some ph' => lifecycle ph' rest
    | None => None
    end
  end.

(** ** The invariant of the reachable states *)

Record Inv (s : System) : Prop := {
  inv_ids_bounded : ∀ this h, heap s !! this = Some h →
    (ChildProcessData.id (data_ h) ≤ last_unique_child_id s)%Z;
  inv_ids_unique : ∀ p q hp hq,
    heap s !! p = Some hp → heap s !! q = Some hq →
    ChildProcessData.id (data_ hp) = ChildProcessData.id (data_ hq) → p = q;
  inv_trace_bounded : ∀ e, e ∈ trace s →
    (ev_id e ≤ last_unique_child_id s)%Z;
  inv_live : ∀ this h, heap s !! this = Some h →
    lifecycle (Alive false) (history (ChildProcessData.id (data_ h)) (trace s))
    = Some (Alive (disconnect_was_alive_ h));
  inv_dead : ∀ i, no_longer_live s i →
    history i (trace s) = []
    ∨ lifecycle (Alive false) (history i (trace s)) = Some Gone;
  inv_list_live : ∀ p, p ∈ g_child_process_list s → is_live s p;
  inv_list_nodup : NoDup (g_child_process_list s)
}.

(** What a call on the live object [h] at [this] can leave behind: some
    effects, an update of the object, its removal from the registry, or its
    destruction, each time with effects that the life cycle accepts. *)
Inductive method_outcome (s : System) (this : ptr)
    (h : BrowserChildProcessHost) : System → Prop :=
  | outcome_effects effs :
      lifecycle (Alive (disconnect_was_alive_ h)) effs
        = Some (Alive (disconnect_was_alive_ h)) →
      method_outcome s this h (after_effects s this h effs)
  | outcome_updated h' effs :
      ChildProcessData.id (data_ h') = ChildProcessData.id (data_ h) →
      lifecycle (Alive (disconnect_was_alive_ h)) effs
        = Some (Alive (disconnect_was_alive_ h')) →
      method_outcome s this h (updated_after s this h h' effs)
  | outcome_unlisted effs :
      lifecycle (Alive (disconnect_was_alive_ h)) effs
        = Some (Alive (disconnect_was_alive_ h)) →
      method_outcome s this h (unlisted_after s this h effs)
  | outcome_deleted effs :
      lifecycle (Alive (disconnect_was_alive_ h)) (effs ++ [Destroyed])
        = Some Gone →
      method_outcome s this h (deleted_after s this h effs).

(** ** Sample inputs *)

Definition example_posix : Platform :=
  {| OS_WIN := false; OS_POSIX := true; DCHECK_IS_ON := true;
     PROCESS_TYPE_MAX := 12 |}.

Definition example_windows : Platform :=
  {| OS_WIN := true; OS_POSIX := false; DCHECK_IS_ON := true;
     PROCESS_TYPE_MAX := 12 |}.

(** The operating system and the launch helper agree on [status]. *)
Definition answering (status : TerminationStatus) (exit_code : Z) : ExitInfo :=
  {| base_GetTerminationStatus := λ _, (status, exit_code);
     GetChildTerminationStatus := (status, exit_code) |}.

(** A supervisor of kind 3 at address 7, with delegate 100 and handle 55. *)
Definition example_host (was_alive : bool) : BrowserChildProcessHost :=
  {| data_ := {| ChildProcessData.type := 3; ChildProcessData.name := "";
                 ChildProcessData.id := 1; ChildProcessData.handle := 55 |};
     delegate_ := 100;
     child_process_host_ :=
       {| filters := [TraceMessageFilter; ProfilerMessageFilter] |};
     child_process_ := None;
     disconnect_was_alive_ := was_alive |}.

Definition example_state (was_alive : bool) : System :=
  {| heap := {[ 7 := example_host was_alive ]};
     g_child_process_list := [7];
     last_unique_child_id := 1;
     trace := [] |}.

(** The same supervisor after [Launch]. *)
Definition example_launching : BrowserChildProcessHost :=
  {| data_ := ChildProcessData.with_id (ChildProcessData.make 3) 1;
     delegate_ := 100;
     child_process_host_ :=
       {| filters := [TraceMessageFilter; ProfilerMessageFilter] |};
     child_process_ := Some {| launch_cmd_line := ["--type=plugin"] |};
     disconnect_was_alive_ := false |}.

Definition example_launching_state : System :=
  {| heap := {[ 7 := example_launching ]};
     g_child_process_list := [7];
     last_unique_child_id := 1;
     trace := [] |}.

(** A launch that fails: the launch helper reports no handle. *)
Definition failed_launch : list Call :=
  [Call_Create 7 3 100; Call_Launch 7 ["--type=plugin"];
   Call_OnProcessLaunched 7 kNullProcessHandle].

(** ** Two sentences of the specification, as they are written *)

(** "Exactly one terminal lifecycle notification (disconnected) is emitted
    per Supervisor": every supervisor that was destroyed has posted it once. *)
Definition exactly_one_disconnected (platform : Platform) : Prop :=
  ∀ calls s i,
    run platform calls initial = Ok s →
    count is_destroyed (history i (trace s)) = 1 →
    count is_disconnected (history i (trace s)) = 1.

(** The handle of the object at [this] after the calls, from the start. *)
Definition handle_after (platform : Platform) (calls : list Call) (this : ptr)
    : option ProcessHandle :=
  match run platform calls initial with
  | Ok s => (λ h, ChildProcessData.handle (data_ h)) <$> heap s !! this
  | Aborted _ => None
  end.

(** "The ProcessDescriptor's handle is set at most once": once it holds a
    handle, no further call changes it. *)
Definition handle_set_at_most_once (platform : Platform) : Prop :=
  ∀ calls c this v w,
    handle_after platform calls this = Some v →
    v ≠ kNullProcessHandle →
    handle_after platform (calls ++ [c]) this = Some w →
    w = v.

(** ** The accessors, and more observations *)

Section Accessors.
Variable platform : Platform.

(** [GetHost()]: the channel. *)
Definition GetHost (this : ptr) : M ChildProcessHost :=
  h ← deref this; mret (child_process_host_ h).

(** [GetHandle()]: both assertions and the answer go through
    [child_process_]; [launcher_handle] is what [child_process_->GetHandle()]
    returns.  Without a launch helper the first [DCHECK] fails, or, with
    assertions compiled out, the null pointer is dereferenced. *)
Definition GetHandle (this : ptr) (launcher_handle : ProcessHandle)
    : M ProcessHandle :=
  h ← deref this;
  DCHECK platform
    (match child_process_ h with Some _ => true | None => false end);;
  match child_process_ h with
  | None => abort NULL_DEREFERENCE
  | Some _ =>
    DCHECK platform (negb (launcher_handle =? kNullProcessHandle)%Z);;
    mret launcher_handle
  end.

End Accessors.

(** A sample of the histogram [name], of whatever process kind. *)
Definition is_named_sample (name : string) (eff : Effect) : bool :=
  match eff with
  | Histogram n _ _ => String.eqb n name
  | _ => false
  end.

Definition samples (name : string) (s : System) : nat :=
  count (is_named_sample name) (ev_effect <$> trace s).

(** What the crash and disconnect accounting of a list of effects obeys. *)
Definition accounts_agree (effs : list Effect) : Prop :=
  count is_crash_callback effs
    = count (is_notification NOTIFICATION_CHILD_PROCESS_CRASHED) effs
  ∧ count (is_notification NOTIFICATION_CHILD_PROCESS_CRASHED) effs
    = count (is_named_sample "ChildProcess.Crashed") effs
  ∧ count is_disconnected effs
    = count (is_named_sample "ChildProcess.Disconnected") effs
  ∧ count (is_named_sample "ChildProcess.CrashedWasAlive") effs
    ≤ count (is_named_sample "ChildProcess.Crashed") effs
  ∧ count (is_named_sample "ChildProcess.KilledWasAlive") effs
    ≤ count (is_named_sample "ChildProcess.Killed") effs
  ∧ count (is_named_sample "ChildProcess.Crashed") effs
    + count (is_named_sample "ChildProcess.Killed") effs
    + count (is_named_sample "ChildProcess.DisconnectedAlive") effs
    ≤ count (is_named_sample "ChildProcess.Disconnected") effs.

(** The name the call writes into the descriptor of [this], if any. *)
Definition writes_name (c : Call) (this : ptr) : option string :=
  match c with
  | Call_SetName p name => if decide (p = this) then Some name else None
  | _ => None
  end.

(** The launch helper the call installs in [this], if any. *)
Definition installs_launcher (c : Call) (this : ptr)
    : option ChildProcessLauncher :=
  match c with
  | Call_Launch p cmd_line =>
    if decide (p = this) then Some {| launch_cmd_line := cmd_line |} else None
  | _ => None
  end.

(** The calls that end in [OnChildDisconnected] or post the "connected"
    notification: the only ones that post notifications. *)
Definition may_notify (c : Call) : bool :=
  match c with
  | Call_OnChannelConnected _ _ | Call_OnChildDisconnected _ _
  | Call_OnWaitableEventSignaled _ _ _ => true
  | _ => false
  end.

(** What [OnChildDisconnected] leaves behind, by status and flag. *)
Definition OnChildDisconnected_leaves (platform : Platform) (s : System)
    (this : ptr) (h : BrowserChildProcessHost)
    (status : TerminationStatus) (exit_code : Z) : System :=
  match status with
  | TERMINATION_STATUS_PROCESS_CRASHED
  | TERMINATION_STATUS_ABNORMAL_TERMINATION =>
    deleted_after s this h
      ([CallDelegate (delegate_ h) (Delegate_OnProcessCrashed exit_code);
        PostNotification NOTIFICATION_CHILD_PROCESS_CRASHED (data_ h);
        sample platform h "ChildProcess.Crashed"]
       ++ was_alive_sample platform h "ChildProcess.CrashedWasAlive"
       ++ terminal_effects platform h)
  | TERMINATION_STATUS_PROCESS_WAS_KILLED =>
    deleted_after s this h
      ([sample platform h "ChildProcess.Killed"]
       ++ was_alive_sample platform h "ChildProcess.KilledWasAlive"
       ++ terminal_effects platform h)
  | TERMINATION_STATUS_STILL_RUNNING =>
    if disconnect_was_alive_ h
    then deleted_after s this h
           (sample platform h "ChildProcess.DisconnectedAlive"
            :: terminal_effects platform h)
    else updated_after s this h (set_disconnect_was_alive h true)
           [recheck_effect platform h]
  | TERMINATION_STATUS_NORMAL_TERMINATION =>
    deleted_after s this h (terminal_effects platform h)
  end.

(** What a call made on the live object [h] at [this] leaves behind: the
    outcome of every method in closed form, to be compared with [step]. *)
Definition call_leaves (platform : Platform) (c : Call) (s : System)
    (this : ptr) (h : BrowserChildProcessHost) : Result System :=
  let disconnected os :=
    if DCHECK_IS_ON platform
       && (ChildProcessData.handle (data_ h) =? kNullProcessHandle)%Z
    then Aborted DCHECK_FAILURE
    else Ok (OnChildDisconnected_leaves platform s this h
               (GetTerminationStatus h os).1 (GetTerminationStatus h os).2) in
  let forwarded call :=
    Ok (after_effects s this h [CallDelegate (delegate_ h) call]) in
  match c with
  | Call_Create _ _ _ | Call_TerminateAll => Ok s
  | Call_delete _ => Ok (deleted_after s this h [])
  | Call_Launch _ cmd_line =>
    Ok (updated_after s this h
          (set_child_process h {| launch_cmd_line := cmd_line |})
          (launch_effects platform h cmd_line))
  | Call_SetName _ name =>
    Ok (updated_after s this h
          (set_data h (ChildProcessData.with_name (data_ h) name)) [])
  | Call_SetHandle _ handle =>
    Ok (updated_after s this h
          (set_data h (ChildProcessData.with_handle (data_ h) handle)) [])
  | Call_ForceShutdown _ => Ok (unlisted_after s this h [ChannelForceShutdown])
  | Call_SetTerminateChildOnShutdown _ b =>
    match child_process_ h with
    | None => Aborted NULL_DEREFERENCE
    | Some _ =>
      Ok (after_effects s this h [LauncherSetTerminateChildOnShutdown b])
    end
  | Call_OnMessageReceived _ message =>
    forwarded (Delegate_OnMessageReceived message)
  | Call_OnChannelConnected _ peer_pid =>
    Ok (after_effects s this h
          [PostNotification NOTIFICATION_CHILD_PROCESS_HOST_CONNECTED (data_ h);
           CallDelegate (delegate_ h) (Delegate_OnChannelConnected peer_pid)])
  | Call_OnChannelError _ => forwarded Delegate_OnChannelError
  | Call_CanShutdown _ => forwarded Delegate_CanShutdown
  | Call_OnChildDisconnected _ os => disconnected os
  | Call_OnWaitableEventSignaled _ exit_code os =>
    if OS_WIN platform
    then (if (exit_code =? STILL_ACTIVE)%Z
          then Ok (deleted_after s this h [])
          else disconnected os)
    else Ok s
  | Call_Send _ message => Ok (after_effects s this h [ChannelSend message])
  | Call_ShutdownStarted _ => Ok (unlisted_after s this h [])
  | Call_OnProcessLaunched _ launcher_handle =>
    match child_process_ h with
    | None => Aborted NULL_DEREFERENCE
    | Some _ =>
      if (launcher_handle =? kNullProcessHandle)%Z
      then Ok (deleted_after s this h [])
      else
        Ok (updated_after s this h
              (set_data h
                 (ChildProcessData.with_handle (data_ h) launcher_handle))
              [CallDelegate (delegate_ h) Delegate_OnProcessLaunched])
    end
  end.

(** A supervisor just constructed at address 7: no handle, no launch helper. *)
Definition example_created : System := created initial 7 3 100.

(** The methods that only pass a call on to the delegate, the channel or
    the launch helper. *)
Definition forwards_only (c : Call) : bool :=
  match c with
  | Call_SetTerminateChildOnShutdown _ _ | Call_OnMessageReceived _ _
  | Call_OnChannelConnected _ _ | Call_OnChannelError _ | Call_CanShutdown _
  | Call_Send _ _ => true
  | _ => false
  end.

(** The call runs [OnChildDisconnected] on [this]: directly, or from the
    wait-object callback on Windows when the exit code is not
    [STILL_ACTIVE]. *)
Definition runs_OnChildDisconnected (platform : Platform) (c : Call)
    (this : ptr) : bool :=
  match c with
  | Call_OnChildDisconnected p _ => bool_decide (p = this)
  | Call_OnWaitableEventSignaled p exit_code _ =>
    bool_decide (p = this) && OS_WIN platform
    && negb (exit_code =? STILL_ACTIVE)%Z
  | _ => false
  end.

(** ** Counting *)

Lemma count_app {A} (f : A → bool) l1 l2 :
  count f (l1 ++ l2) = count f l1 + count f l2.
Proof. unfold count. by rewrite List.filter_app, length_app. Qed.

Lemma count_cons {A} (f : A → bool) x l :
  count f (x :: l) = (if f x then 1 else 0) + count f l.
Proof. unfold count. simpl. by destruct (f x). Qed.

Lemma effects_of_events this h (effs : list Effect) :
  ev_effect <$> (event_of this h <$> effs) = effs.
Proof. induction effs as [|eff effs IH]; [done|]. cbn. by rewrite IH. Qed.

Lemma history_app i l1 l2 : history i (l1 ++ l2) = history i l1 ++ history i l2.
Proof. unfold history. by rewrite filter_app, fmap_app. Qed.

Lemma history_cons i e l :
  history i (e :: l) =
  (if decide (ev_id e = i) then [ev_effect e] else []) ++ history i l.
Proof. unfold history. rewrite filter_cons. by destruct (decide _). Qed.

Lemma history_own this h (effs : list Effect) :
  history (ChildProcessData.id (data_ h)) (event_of this h <$> effs) = effs.
Proof.
  induction effs as [|eff effs IH]; [done|].
  rewrite fmap_cons, history_cons, IH. simpl.
  by rewrite decide_True.
Qed.

Lemma history_other this h (effs : list Effect) i :
  ChildProcessData.id (data_ h) ≠ i →
  history i (event_of this h <$> effs) = [].
Proof.
  intros Hne. induction effs as [|eff effs IH]; [done|].
  rewrite fmap_cons, history_cons, IH. simpl.
  by rewrite decide_False.
Qed.

(** ** Running one method on a known object *)

Ltac unfold_methods :=
  unfold step, perform, exec, OnChildDisconnected, disconnected_and_delete,
    OnWaitableEventSignaled, OnProcessLaunched, ForceShutdown, ShutdownStarted,
    SetHandle, SetName, Launch, SetTerminateChildOnShutdown, OnMessageReceived,
    OnChannelConnected, OnChannelError, CanShutdown, Send, delete_,
    UMA_HISTOGRAM_ENUMERATION, Notify, call_delegate, DCHECK, emit,
    list_remove, list_push_back, free, store, record, deref, abort,
    mbind, M_bind, mret, M_ret in *.

(** Runs the method in the goal to its result state, given the object. *)
Ltac mrun H :=
  unfold_methods; cbn;
  repeat (first [rewrite H | rewrite lookup_insert_eq]; cbn).

Ltac unfold_outcomes :=
  unfold deleted_after, updated_after, unlisted_after, after_effects,
    was_alive_sample, terminal_effects, recheck_effect, sample, event_of.

Section Single_calls.
Variable platform : Platform.

Lemma dcheck_handle_run h :
  dcheck_handle platform h →
  DCHECK_IS_ON platform
    && negb (negb (ChildProcessData.handle (data_ h) =? kNullProcessHandle)%Z)
  = false.
Proof.
  unfold dcheck_handle. intros Hd.
  destruct (DCHECK_IS_ON platform); [|done]. cbn.
  rewrite negb_involutive. apply Z.eqb_neq. by apply Hd.
Qed.

Lemma Launch_run s this h cmd_line :
  heap s !! this = Some h →
  exec (Launch platform this cmd_line) s =
  Ok (updated_after s this h
        (set_child_process h {| launch_cmd_line := cmd_line |})
        (launch_effects platform h cmd_line)).
Proof.
  intros Hh. unfold_outcomes. unfold launch_effects. mrun Hh.
  destruct (OS_WIN platform); [|destruct (OS_POSIX platform)];
    mrun Hh; rewrite <- ?app_assoc; reflexivity.
Qed.

Lemma delete_run s this h :
  heap s !! this = Some h →
  exec (delete_ this) s = Ok (deleted_after s this h []).
Proof. intros Hh. unfold_outcomes. by mrun Hh. Qed.

Lemma OnChildDisconnected_crashed_run s this h os status exit_code :
  heap s !! this = Some h →
  dcheck_handle platform h →
  GetTerminationStatus h os = (status, exit_code) →
  status = TERMINATION_STATUS_PROCESS_CRASHED
    ∨ status = TERMINATION_STATUS_ABNORMAL_TERMINATION →
  exec (OnChildDisconnected platform this os) s =
  Ok (deleted_after s this h
        ([CallDelegate (delegate_ h) (Delegate_OnProcessCrashed exit_code);
          PostNotification NOTIFICATION_CHILD_PROCESS_CRASHED (data_ h);
          sample platform h "ChildProcess.Crashed"]
         ++ was_alive_sample platform h "ChildProcess.CrashedWasAlive"
         ++ terminal_effects platform h)).
Proof.
  intros Hh Hd Hst Hcase. apply dcheck_handle_run in Hd.
  unfold_outcomes. mrun Hh. rewrite Hd, Hst.
  destruct Hcase as [-> | ->]; destruct (disconnect_was_alive_ h) eqn:Hf;
    mrun Hh; rewrite <- ?app_assoc; reflexivity.
Qed.

Lemma OnChildDisconnected_killed_run s this h os exit_code :
  heap s !! this = Some h →
  dcheck_handle platform h →
  GetTerminationStatus h os
    = (TERMINATION_STATUS_PROCESS_WAS_KILLED, exit_code) →
  exec (OnChildDisconnected platform this os) s =
  Ok (deleted_after s this h
        ([sample platform h "ChildProcess.Killed"]
         ++ was_alive_sample platform h "ChildProcess.KilledWasAlive"
         ++ terminal_effects platform h)).
Proof.
  intros Hh Hd Hst. apply dcheck_handle_run in Hd.
  unfold_outcomes. mrun Hh. rewrite Hd, Hst.
  destruct (disconnect_was_alive_ h) eqn:Hf;
    mrun Hh; rewrite <- ?app_assoc; reflexivity.
Qed.

Lemma OnChildDisconnected_first_alive_run s this h os exit_code :
  heap s !! this = Some h →
  dcheck_handle platform h →
  GetTerminationStatus h os = (TERMINATION_STATUS_STILL_RUNNING, exit_code) →
  disconnect_was_alive_ h = false →
  exec (OnChildDisconnected platform this os) s =
  Ok (updated_after s this h (set_disconnect_was_alive h true)
        [recheck_effect platform h]).
Proof.
  intros Hh Hd Hst Hf. apply dcheck_handle_run in Hd.
  unfold_outcomes. mrun Hh. rewrite Hd, Hst, Hf.
  destruct (OS_WIN platform); mrun Hh; reflexivity.
Qed.

Lemma OnChildDisconnected_second_alive_run s this h os exit_code :
  heap s !! this = Some h →
  dcheck_handle platform h →
  GetTerminationStatus h os = (TERMINATION_STATUS_STILL_RUNNING, exit_code) →
  disconnect_was_alive_ h = true →
  exec (OnChildDisconnected platform this os) s =
  Ok (deleted_after s this h
        (sample platform h "ChildProcess.DisconnectedAlive"
         :: terminal_effects platform h)).
Proof.
  intros Hh Hd Hst Hf. apply dcheck_handle_run in Hd.
  unfold_outcomes. mrun Hh. rewrite Hd, Hst, Hf.
  mrun Hh; rewrite <- ?app_assoc; reflexivity.
Qed.

Lemma OnChildDisconnected_other_run s this h os exit_code :
  heap s !! this = Some h →
  dcheck_handle platform h →
  GetTerminationStatus h os
    = (TERMINATION_STATUS_NORMAL_TERMINATION, exit_code) →
  exec (OnChildDisconnected platform this os) s =
  Ok (deleted_after s this h (terminal_effects platform h)).
Proof.
  intros Hh Hd Hst. apply dcheck_handle_run in Hd.
  unfold_outcomes. mrun Hh. rewrite Hd, Hst.
  mrun Hh; rewrite <- ?app_assoc; reflexivity.
Qed.

End Single_calls.

(** ** The life-cycle monitor *)

Lemma lifecycle_app ph l1 l2 :
  lifecycle ph (l1 ++ l2) = lifecycle ph l1 ≫= λ ph', lifecycle ph' l2.
Proof.
  revert ph. induction l1 as [|eff l1 IH]; intros ph; [done|].
  simpl. destruct (advance ph eff); [apply IH | done].
Qed.

Lemma is_destroyed_true eff : is_destroyed eff = true → eff = Destroyed.
Proof. by destruct eff. Qed.

Lemma lifecycle_gone l ph : lifecycle Gone l = Some ph → l = [].
Proof. by destruct l. Qed.

Lemma lifecycle_disconnected l ph :
  lifecycle Disconnected l = Some ph →
  (l = [] ∧ ph = Disconnected) ∨ (l = [Destroyed] ∧ ph = Gone).
Proof.
  destruct l as [|eff l]; simpl; [intros [= <-]; by left|].
  destruct (is_destroyed eff) eqn:Hd; [|done].
  apply is_destroyed_true in Hd as ->. intros Hl. right.
  destruct l; [by injection Hl as <- | done].
Qed.

(** From an alive phase back to an alive phase: no terminal notification,
    no destructor, and [disconnect_was_alive_] only ever rises, with the one
    re-check. *)
Lemma lifecycle_alive_alive b b' l :
  lifecycle (Alive b) l = Some (Alive b') →
  count is_disconnected l = 0 ∧ count is_destroyed l = 0
  ∧ (b = true → b' = true)
  ∧ count is_recheck l = (if b then 0 else if b' then 1 else 0).
Proof.
  revert b. induction l as [|eff l IH]; intros b; simpl.
  - intros [= <-]. by destruct b.
  - rewrite !count_cons.
    destruct (is_recheck eff) eqn:Hr.
    + destruct b; [done|]. intros Hl. apply IH in Hl as (? & ? & Hb & Hc).
      rewrite Hb in * by done.
      destruct eff; try done; simpl; by repeat split; try lia.
    + destruct (is_disconnected eff) eqn:Hn.
      { intros Hl. by apply lifecycle_disconnected in Hl as [[_ ?]|[_ ?]]. }
      destruct (is_destroyed eff) eqn:Hd.
      { intros Hl. apply lifecycle_gone in Hl as Hl'. by subst. }
      intros Hl. apply IH in Hl as (? & ? & ? & ?). repeat split; try lia.
      done.
Qed.

(** Whatever the monitor accepts has at most one re-check (none when the
    flag is already set) and at most one terminal notification. *)
Lemma lifecycle_alive_counts b l ph :
  lifecycle (Alive b) l = Some ph →
  count is_recheck l ≤ (if b then 0 else 1) ∧ count is_disconnected l ≤ 1.
Proof.
  revert b. induction l as [|eff l IH]; intros b; simpl.
  { intros _. unfold count. simpl. destruct b; lia. }
  rewrite !count_cons.
  destruct (is_recheck eff) eqn:Hr.
  - destruct b; [done|]. intros Hl.
    assert (is_disconnected eff = false) as -> by by destruct eff.
    apply IH in Hl. lia.
  - destruct (is_disconnected eff) eqn:Hn.
    { intros Hl.
      apply lifecycle_disconnected in Hl as [[-> _]|[-> _]];
        unfold count; simpl; destruct b; lia. }
    destruct (is_destroyed eff) eqn:Hd.
    { intros Hl. apply lifecycle_gone in Hl as ->.
      unfold count; simpl; destruct b; lia. }
    intros Hl. apply IH in Hl. lia.
Qed.

(** The terminal notification is posted from an alive phase, nothing of the
    kind precedes it, and only the destructor may follow. *)
Lemma lifecycle_disconnected_last b l1 eff l2 ph :
  lifecycle (Alive b) (l1 ++ eff :: l2) = Some ph →
  is_disconnected eff = true →
  count is_disconnected l1 = 0
  ∧ ((l2 = [] ∧ ph = Disconnected) ∨ (l2 = [Destroyed] ∧ ph = Gone)).
Proof.
  rewrite lifecycle_app. intros Hl Heff.
  destruct (lifecycle (Alive b) l1) as [ph1|] eqn:H1; [|done].
  simpl in Hl. destruct ph1 as [b1| |].
  - apply lifecycle_alive_alive in H1 as (-> & _). split; [done|].
    simpl in Hl. rewrite Heff in Hl.
    assert (is_recheck eff = false) as Hr by by destruct eff.
    rewrite Hr in Hl. by apply lifecycle_disconnected.
  - simpl in Hl.
    assert (is_destroyed eff = false) as Hd by by destruct eff.
    by rewrite Hd in Hl.
  - done.
Qed.

(** ** The invariant is kept by every call *)

Lemma Inv_initial : Inv initial.
Proof.
  split; simpl.
  - intros p h. by rewrite lookup_empty.
  - intros p q hp hq. by rewrite lookup_empty.
  - intros e He. by apply elem_of_nil in He.
  - intros p h. by rewrite lookup_empty.
  - intros i _. by left.
  - intros p Hp. by apply elem_of_nil in Hp.
  - constructor.
Qed.

(** The object stays (possibly changed, never its id). *)
Lemma Inv_update s s' this h h' effs :
  Inv s → heap s !! this = Some h →
  heap s' = <[this := h']> (heap s) →
  (∀ p, p ∈ g_child_process_list s' → p ∈ g_child_process_list s) →
  NoDup (g_child_process_list s') →
  last_unique_child_id s' = last_unique_child_id s →
  trace s' = trace s ++ (event_of this h <$> effs) →
  ChildProcessData.id (data_ h') = ChildProcessData.id (data_ h) →
  lifecycle (Alive (disconnect_was_alive_ h)) effs
    = Some (Alive (disconnect_was_alive_ h')) →
  Inv s'.
Proof.
  intros [Hb Hu Ht Hl Hd Hll Hn] Hh Hheap Hsub Hnd Hlast Htr Hid Hlc.
  split.
  - intros p hp. rewrite Hheap, Hlast.
    intros [[<- <-]|[_ Hp]]%lookup_insert_Some; [rewrite Hid|]; eauto.
  - intros p q hp hq. rewrite Hheap.
    intros [[<- <-]|[Hne Hp]]%lookup_insert_Some
           [[<- <-]|[Hne' Hq]]%lookup_insert_Some; rewrite ?Hid; eauto.
  - intros e. rewrite Htr, Hlast.
    intros [He|(eff & -> & _)%list_elem_of_fmap]%elem_of_app; simpl; eauto.
  - intros p hp. rewrite Hheap, Htr, history_app.
    intros [[<- <-]|[Hne Hp]]%lookup_insert_Some.
    + rewrite Hid, history_own, lifecycle_app, (Hl _ _ Hh). done.
    + rewrite history_other, app_nil_r; [by eapply Hl|].
      intros Heq. apply Hne. eapply Hu; eauto.
  - intros i Hi. rewrite Htr, history_app.
    assert (ChildProcessData.id (data_ h) ≠ i) as Hne.
    { rewrite <- Hid. apply (Hi this). rewrite Hheap. apply lookup_insert_eq. }
    rewrite history_other, app_nil_r by done. apply Hd.
    intros p hp Hp. destruct (decide (p = this)) as [->|Hpne].
    + by rewrite Hh in Hp; injection Hp as <-.
    + apply (Hi p). rewrite Hheap. by rewrite lookup_insert_ne.
  - intros p Hp%Hsub%Hll. unfold is_live in *. rewrite Hheap.
    apply lookup_insert_is_Some. destruct (decide (this = p)); eauto.
  - done.
Qed.

(** The object is destroyed. *)
Lemma Inv_delete s s' this h effs :
  Inv s → heap s !! this = Some h →
  heap s' = delete this (heap s) →
  g_child_process_list s'
    = filter (λ q, q ≠ this) (g_child_process_list s) →
  last_unique_child_id s' = last_unique_child_id s →
  trace s' = trace s ++ (event_of this h <$> effs) →
  lifecycle (Alive (disconnect_was_alive_ h)) effs = Some Gone →
  Inv s'.
Proof.
  intros [Hb Hu Ht Hl Hd Hll Hn] Hh Hheap Hlist Hlast Htr Hlc.
  split.
  - intros p hp. rewrite Hheap, Hlast.
    intros [_ Hp]%lookup_delete_Some. eauto.
  - intros p q hp hq. rewrite Hheap.
    intros [_ Hp]%lookup_delete_Some [_ Hq]%lookup_delete_Some. eauto.
  - intros e. rewrite Htr, Hlast.
    intros [He|(eff & -> & _)%list_elem_of_fmap]%elem_of_app; simpl; eauto.
  - intros p hp. rewrite Hheap, Htr, history_app.
    intros [Hne Hp]%lookup_delete_Some.
    rewrite history_other, app_nil_r; [by eapply Hl|].
    intros Heq. apply Hne. eapply Hu; eauto.
  - intros i Hi. rewrite Htr, history_app.
    destruct (decide (ChildProcessData.id (data_ h) = i)) as [<-|Hne].
    + right. by rewrite history_own, lifecycle_app, (Hl _ _ Hh).
    + rewrite history_other, app_nil_r by done. apply Hd.
      intros p hp Hp. destruct (decide (p = this)) as [->|Hpne].
      * by rewrite Hh in Hp; injection Hp as <-.
      * apply (Hi p). rewrite Hheap. by rewrite lookup_delete_ne.
  - intros p. rewrite Hlist. intros [Hne Hp%Hll]%list_elem_of_filter.
    unfold is_live in *. rewrite Hheap. by rewrite lookup_delete_ne.
  - rewrite Hlist. by apply NoDup_filter.
Qed.

Lemma method_outcome_Inv s s' this h :
  Inv s → heap s !! this = Some h → method_outcome s this h s' → Inv s'.
Proof.
  intros HI Hh Ho. destruct Ho as [effs Hl|h' effs Hid Hl|effs Hl|effs Hl].
  - eapply (Inv_update s _ this h h effs); eauto; try done.
    + simpl. by rewrite insert_id.
    + apply HI.
  - eapply (Inv_update s _ this h h' effs); eauto; try done. apply HI.
  - eapply (Inv_update s _ this h h effs); eauto; try done.
    + simpl. by rewrite insert_id.
    + simpl. by intros p [_ ?]%list_elem_of_filter.
    + simpl. apply NoDup_filter, HI.
  - eapply (Inv_delete s _ this h (effs ++ [Destroyed])); eauto; done.
Qed.

(** ** What each method leaves behind *)

Ltac run_to_outcome H :=
  unfold_outcomes; mrun H; rewrite <- ?app_assoc, ?app_nil_r; reflexivity.

Lemma SetName_run s this h name :
  heap s !! this = Some h →
  exec (SetName this name) s =
  Ok (updated_after s this h
        (set_data h (ChildProcessData.with_name (data_ h) name)) []).
Proof. intros Hh. run_to_outcome Hh. Qed.

Lemma SetHandle_run s this h handle :
  heap s !! this = Some h →
  exec (SetHandle this handle) s =
  Ok (updated_after s this h
        (set_data h (ChildProcessData.with_handle (data_ h) handle)) []).
Proof. intros Hh. run_to_outcome Hh. Qed.

Lemma ForceShutdown_run s this h :
  heap s !! this = Some h →
  exec (ForceShutdown this) s =
  Ok (unlisted_after s this h [ChannelForceShutdown]).
Proof. intros Hh. run_to_outcome Hh. Qed.

Lemma ShutdownStarted_run s this h :
  heap s !! this = Some h →
  exec (ShutdownStarted this) s = Ok (unlisted_after s this h []).
Proof. intros Hh. run_to_outcome Hh. Qed.

Lemma SetTerminateChildOnShutdown_run s this h l b :
  heap s !! this = Some h →
  child_process_ h = Some l →
  exec (SetTerminateChildOnShutdown this b) s =
  Ok (after_effects s this h [LauncherSetTerminateChildOnShutdown b]).
Proof. intros Hh Hl. unfold_outcomes. mrun Hh. rewrite Hl. by mrun Hh. Qed.

Lemma call_delegate_run s this h call :
  heap s !! this = Some h →
  exec (call_delegate this call) s =
  Ok (after_effects s this h [CallDelegate (delegate_ h) call]).
Proof. intros Hh. run_to_outcome Hh. Qed.

Lemma OnChannelConnected_run s this h peer_pid :
  heap s !! this = Some h →
  exec (OnChannelConnected this peer_pid) s =
  Ok (after_effects s this h
        [PostNotification NOTIFICATION_CHILD_PROCESS_HOST_CONNECTED (data_ h);
         CallDelegate (delegate_ h) (Delegate_OnChannelConnected peer_pid)]).
Proof. intros Hh. run_to_outcome Hh. Qed.

Lemma Send_run s this h message :
  heap s !! this = Some h →
  exec (Send this message) s =
  Ok (after_effects s this h [ChannelSend message]).
Proof. intros Hh. run_to_outcome Hh. Qed.

Lemma OnProcessLaunched_invalid_run s this h l :
  heap s !! this = Some h →
  child_process_ h = Some l →
  exec (OnProcessLaunched this kNullProcessHandle) s =
  Ok (deleted_after s this h []).
Proof. intros Hh Hl. unfold_outcomes. mrun Hh. rewrite Hl. by mrun Hh. Qed.

Lemma OnProcessLaunched_valid_run s this h l launcher_handle :
  heap s !! this = Some h →
  child_process_ h = Some l →
  launcher_handle ≠ kNullProcessHandle →
  exec (OnProcessLaunched this launcher_handle) s =
  Ok (updated_after s this h
        (set_data h (ChildProcessData.with_handle (data_ h) launcher_handle))
        [CallDelegate (delegate_ h) Delegate_OnProcessLaunched]).
Proof.
  intros Hh Hl Hv%Z.eqb_neq. unfold_outcomes. mrun Hh. rewrite Hl, Hv.
  by mrun Hh.
Qed.

Section Outcome_of_calls.
Variable platform : Platform.

Lemma OnChildDisconnected_dcheck_fails s this h os :
  heap s !! this = Some h →
  ¬ dcheck_handle platform h →
  exec (OnChildDisconnected platform this os) s = Aborted DCHECK_FAILURE.
Proof.
  intros Hh Hd. unfold dcheck_handle in Hd. mrun Hh.
  destruct (DCHECK_IS_ON platform); [|by destruct Hd]. cbn.
  destruct (Z.eqb_spec (ChildProcessData.handle (data_ h)) kNullProcessHandle)
    as [Heq|Hne]; [done|]. by destruct Hd.
Qed.

Lemma dcheck_handle_dec h :
  dcheck_handle platform h ∨ ¬ dcheck_handle platform h.
Proof.
  unfold dcheck_handle. destruct (DCHECK_IS_ON platform); [|by left].
  destruct (decide (ChildProcessData.handle (data_ h) = kNullProcessHandle))
    as [Heq|Hne]; [right|left]; eauto.
Qed.

Lemma OnChildDisconnected_outcome s s' this h os :
  heap s !! this = Some h →
  exec (OnChildDisconnected platform this os) s = Ok s' →
  method_outcome s this h s'.
Proof.
  intros Hh. destruct (dcheck_handle_dec h) as [Hd|Hd].
  2:{ by rewrite (OnChildDisconnected_dcheck_fails _ _ _ _ Hh Hd). }
  destruct (GetTerminationStatus h os) as [status exit_code] eqn:Hst.
  destruct status.
  - rewrite (OnChildDisconnected_other_run _ _ _ _ _ _ Hh Hd Hst).
    intros [= <-]. apply outcome_deleted. by destruct (disconnect_was_alive_ h).
  - rewrite (OnChildDisconnected_crashed_run _ _ _ _ _ _ _ Hh Hd Hst)
      by by right.
    intros [= <-]. apply outcome_deleted.
    unfold was_alive_sample. by destruct (disconnect_was_alive_ h).
  - rewrite (OnChildDisconnected_killed_run _ _ _ _ _ _ Hh Hd Hst).
    intros [= <-]. apply outcome_deleted.
    unfold was_alive_sample. by destruct (disconnect_was_alive_ h).
  - rewrite (OnChildDisconnected_crashed_run _ _ _ _ _ _ _ Hh Hd Hst)
      by by left.
    intros [= <-]. apply outcome_deleted.
    unfold was_alive_sample. by destruct (disconnect_was_alive_ h).
  - destruct (disconnect_was_alive_ h) eqn:Hf.
    + rewrite (OnChildDisconnected_second_alive_run _ _ _ _ _ _ Hh Hd Hst Hf).
      intros [= <-]. apply outcome_deleted. by rewrite Hf.
    + rewrite (OnChildDisconnected_first_alive_run _ _ _ _ _ _ Hh Hd Hst Hf).
      intros [= <-]. apply outcome_updated; [done|]. rewrite Hf.
      unfold recheck_effect. by destruct (OS_WIN platform).
Qed.

Lemma step_dead c s this :
  receiver c = Some this → heap s !! this = None →
  step platform c s = Aborted INVALID_POINTER.
Proof.
  intros Hr Hh. unfold step. rewrite Hr.
  unfold exec, mbind, M_bind, deref. by rewrite Hh.
Qed.

Lemma step_live c s this h :
  receiver c = Some this → heap s !! this = Some h →
  step platform c s = exec (perform platform c) s.
Proof.
  intros Hr Hh. unfold step. rewrite Hr.
  unfold exec, mbind, M_bind, deref. by rewrite Hh.
Qed.

Lemma step_method_outcome c s s' this :
  receiver c = Some this →
  step platform c s = Ok s' →
  ∃ h, heap s !! this = Some h ∧ method_outcome s this h s'.
Proof.
  intros Hrec Hstep.
  destruct (heap s !! this) as [h|] eqn:Hh.
  2:{ by rewrite (step_dead _ _ _ Hrec Hh) in Hstep. }
  exists h. split; [done|].
  rewrite (step_live _ _ _ _ Hrec Hh) in Hstep.
  destruct c; simplify_eq/=.
  - rewrite (delete_run _ _ _ Hh) in Hstep. simplify_eq.
    apply outcome_deleted. by destruct (disconnect_was_alive_ h).
  - rewrite (Launch_run _ _ _ _ _ Hh) in Hstep. simplify_eq.
    apply outcome_updated; [done|]. unfold launch_effects. simpl.
    by destruct (disconnect_was_alive_ h), (OS_WIN platform),
      (OS_POSIX platform).
  - rewrite (SetName_run _ _ _ _ Hh) in Hstep. simplify_eq.
    by apply outcome_updated.
  - rewrite (SetHandle_run _ _ _ _ Hh) in Hstep. simplify_eq.
    by apply outcome_updated.
  - rewrite (ForceShutdown_run _ _ _ Hh) in Hstep. simplify_eq.
    apply outcome_unlisted. by destruct (disconnect_was_alive_ h).
  - destruct (child_process_ h) as [l|] eqn:Hl.
    + rewrite (SetTerminateChildOnShutdown_run _ _ _ _ _ Hh Hl) in Hstep.
      simplify_eq. apply outcome_effects. by destruct (disconnect_was_alive_ h).
    + revert Hstep. mrun Hh. by rewrite Hl.
  - unfold OnMessageReceived in Hstep.
    rewrite (call_delegate_run _ _ _ _ Hh) in Hstep. simplify_eq.
    apply outcome_effects. by destruct (disconnect_was_alive_ h).
  - rewrite (OnChannelConnected_run _ _ _ _ Hh) in Hstep. simplify_eq.
    apply outcome_effects. by destruct (disconnect_was_alive_ h).
  - unfold OnChannelError in Hstep.
    rewrite (call_delegate_run _ _ _ _ Hh) in Hstep. simplify_eq.
    apply outcome_effects. by destruct (disconnect_was_alive_ h).
  - unfold CanShutdown in Hstep.
    rewrite (call_delegate_run _ _ _ _ Hh) in Hstep. simplify_eq.
    apply outcome_effects. by destruct (disconnect_was_alive_ h).
  - by eapply OnChildDisconnected_outcome.
  - unfold OnWaitableEventSignaled in Hstep.
    destruct (OS_WIN platform).
    + destruct (exit_code =? STILL_ACTIVE)%Z.
      * rewrite (delete_run _ _ _ Hh) in Hstep. simplify_eq.
        apply outcome_deleted. by destruct (disconnect_was_alive_ h).
      * by eapply OnChildDisconnected_outcome.
    + unfold exec, mret, M_ret in Hstep. simplify_eq.
      assert (s' = after_effects s' this h []) as Heq.
      { unfold after_effects. destruct s'. simpl. by rewrite app_nil_r. }
      pose proof (outcome_effects s' this h [] eq_refl) as Ho.
      by rewrite <- Heq in Ho.
  - rewrite (Send_run _ _ _ _ Hh) in Hstep. simplify_eq.
    apply outcome_effects. by destruct (disconnect_was_alive_ h).
  - rewrite (ShutdownStarted_run _ _ _ Hh) in Hstep. simplify_eq.
    apply outcome_unlisted. by destruct (disconnect_was_alive_ h).
  - destruct (child_process_ h) as [l|] eqn:Hl.
    + destruct (decide (launcher_handle = kNullProcessHandle)) as [->|Hv].
      * rewrite (OnProcessLaunched_invalid_run _ _ _ _ Hh Hl) in Hstep.
        simplify_eq. apply outcome_deleted.
        by destruct (disconnect_was_alive_ h).
      * rewrite (OnProcessLaunched_valid_run _ _ _ _ _ Hh Hl Hv) in Hstep.
        simplify_eq. apply outcome_updated; [done|]. simpl.
        by destruct (disconnect_was_alive_ h).
    + revert Hstep. mrun Hh. by rewrite Hl.
Qed.

End Outcome_of_calls.

(** ** Construction and bulk destruction *)

Lemma exec_Ok (m : M ()) s s' : exec m s = Ok s' ↔ m s = Ok ((), s').
Proof.
  unfold exec. destruct (m s) as [[[] s1]|why]; split; congruence.
Qed.

Lemma Create_run s this type delegate :
  heap s !! this = None →
  Create this type delegate s = Ok (this, created s this type delegate).
Proof. intros Hh. unfold Create. by rewrite Hh. Qed.

Lemma Create_in_use s this type delegate h :
  heap s !! this = Some h →
  Create this type delegate s = Aborted ADDRESS_IN_USE.
Proof. intros Hh. unfold Create. by rewrite Hh. Qed.

Lemma history_none i tr :
  (∀ e, e ∈ tr → ev_id e ≠ i) → history i tr = [].
Proof.
  induction tr as [|e tr IH]; intros Hall; [done|].
  rewrite history_cons, decide_False, IH; [done| |].
  - intros e' He'. apply Hall. by right.
  - apply Hall. by left.
Qed.

Lemma Inv_created s this type delegate :
  Inv s → heap s !! this = None → Inv (created s this type delegate).
Proof.
  intros [Hb Hu Ht Hl Hd Hll Hn] Hh.
  assert (∀ p hp, heap s !! p = Some hp →
    ChildProcessData.id (data_ hp) ≠ (last_unique_child_id s + 1)%Z) as Hfresh.
  { intros p hp Hp%Hb. lia. }
  split; simpl.
  - intros p hp [[<- <-]|[_ Hp%Hb]]%lookup_insert_Some; simpl; lia.
  - intros p q hp hq [[<- <-]|[_ Hp]]%lookup_insert_Some
                     [[<- <-]|[_ Hq]]%lookup_insert_Some; simpl; eauto.
    + intros Heq. symmetry in Heq. by apply (Hfresh _ _ Hq) in Heq.
    + intros Heq. by apply (Hfresh _ _ Hp) in Heq.
  - intros e He%Ht. lia.
  - intros p hp [[<- <-]|[_ Hp]]%lookup_insert_Some; simpl; [|eauto].
    rewrite history_none; [done|]. intros e He%Ht. lia.
  - intros i Hi. apply Hd. intros p hp Hp. apply (Hi p). simpl.
    rewrite lookup_insert_ne; [done|]. intros <-. congruence.
  - intros p [Hp%Hll| ->%list_elem_of_singleton]%elem_of_app;
      unfold is_live in *; simpl; apply lookup_insert_is_Some.
    + destruct (decide (this = p)); eauto.
    + by left.
  - apply NoDup_app. split; [done|]. split; [|apply NoDup_singleton].
    intros p Hp%Hll ->%list_elem_of_singleton.
    unfold is_live in Hp. rewrite Hh in Hp. by destruct Hp.
Qed.

Lemma delete_dead s this :
  heap s !! this = None → delete_ this s = Aborted INVALID_POINTER.
Proof. intros Hh. unfold delete_, mbind, M_bind, deref. by rewrite Hh. Qed.

Lemma STLDeleteElements_cons p rest s :
  STLDeleteElements (p :: rest) s =
  match delete_ p s with
  | Ok (_, s1) => STLDeleteElements rest s1
  | Aborted why => Aborted why
  end.
Proof.
  simpl. unfold mbind at 1, M_bind at 1.
  by destruct (delete_ p s) as [[[] s1]|].
Qed.

Lemma delete_Inv s s' this :
  Inv s → delete_ this s = Ok ((), s') → Inv s'.
Proof.
  intros HI Hdel. destruct (heap s !! this) as [h|] eqn:Hh.
  - apply exec_Ok in Hdel. rewrite (delete_run _ _ _ Hh) in Hdel.
    injection Hdel as <-. eapply method_outcome_Inv; [done..|].
    apply outcome_deleted. by destruct (disconnect_was_alive_ h).
  - by rewrite delete_dead in Hdel.
Qed.

Lemma STLDeleteElements_Inv container s s' :
  Inv s → STLDeleteElements container s = Ok ((), s') → Inv s'.
Proof.
  revert s. induction container as [|p rest IH]; intros s HI.
  - by intros [= <-].
  - rewrite STLDeleteElements_cons.
    destruct (delete_ p s) as [[[] s1]|] eqn:Hdel; [|done].
    apply IH. by eapply delete_Inv.
Qed.

Section Reachable.
Variable platform : Platform.

Lemma step_Inv c s s' : Inv s → step platform c s = Ok s' → Inv s'.
Proof.
  intros HI Hstep. destruct (receiver c) as [this|] eqn:Hrec.
  - destruct (step_method_outcome _ _ _ _ _ Hrec Hstep) as (h & Hh & Ho).
    by eapply method_outcome_Inv.
  - unfold step in Hstep. rewrite Hrec in Hstep.
    destruct c; simplify_eq/=.
    + destruct (heap s !! this) as [h|] eqn:Hh.
      * revert Hstep. unfold exec, mbind, M_bind.
        by rewrite (Create_in_use _ _ _ _ _ Hh).
      * revert Hstep. unfold exec, mbind, M_bind.
        rewrite (Create_run _ _ _ _ Hh). intros [= <-].
        by apply Inv_created.
    + apply exec_Ok in Hstep. by eapply STLDeleteElements_Inv.
Qed.

Lemma run_Inv calls s s' : Inv s → run platform calls s = Ok s' → Inv s'.
Proof.
  revert s. induction calls as [|c calls IH]; intros s HI; simpl.
  - by intros [= <-].
  - destruct (step platform c s) as [s1|] eqn:Hstep; [|done].
    apply IH. by eapply step_Inv.
Qed.

Lemma reachable_Inv calls s : run platform calls initial = Ok s → Inv s.
Proof. apply run_Inv, Inv_initial. Qed.

End Reachable.

(** ** What a call changes in an object *)

Lemma method_outcome_frame s s' this h p :
  method_outcome s this h s' → p ≠ this → heap s' !! p = heap s !! p.
Proof.
  intros [effs _|h' effs _ _|effs _|effs _] Hne; simpl; try done.
  - by rewrite lookup_insert_ne.
  - by rewrite lookup_delete_ne.
Qed.

Lemma STLDeleteElements_shrinks container s s' p h :
  STLDeleteElements container s = Ok ((), s') →
  heap s' !! p = Some h → heap s !! p = Some h.
Proof.
  revert s. induction container as [|q rest IH]; intros s.
  - by intros [= <-].
  - rewrite STLDeleteElements_cons.
    destruct (delete_ q s) as [[[] s1]|] eqn:Hdel; [|done].
    intros Hrest Hp. specialize (IH _ Hrest Hp).
    destruct (heap s !! q) as [hq|] eqn:Hq.
    + apply exec_Ok in Hdel. rewrite (delete_run _ _ _ Hq) in Hdel.
      injection Hdel as <-. simpl in IH.
      by apply lookup_delete_Some in IH as [_ ?].
    + by rewrite delete_dead in Hdel.
Qed.

Section Object_changes.
Variable platform : Platform.

Ltac object_case Hstep Hh' :=
  simplify_eq; simpl in Hh';
  rewrite ?lookup_insert_eq, ?lookup_delete_eq in Hh'; simplify_eq; simpl.

(** [OnChildDisconnected] leaves the object in place only on the first
    "still running" observation. *)
Lemma OnChildDisconnected_fields s s' this h h' os :
  heap s !! this = Some h →
  exec (OnChildDisconnected platform this os) s = Ok s' →
  heap s' !! this = Some h' →
  h' = set_disconnect_was_alive h true
  ∧ disconnect_was_alive_ h = false
  ∧ (GetTerminationStatus h os).1 = TERMINATION_STATUS_STILL_RUNNING.
Proof.
  intros Hh Hstep Hh'. destruct (dcheck_handle_dec platform h) as [Hd|Hd].
  2:{ by rewrite (OnChildDisconnected_dcheck_fails _ _ _ _ _ Hh Hd) in Hstep. }
  destruct (GetTerminationStatus h os) as [status exit_code] eqn:Hst.
  destruct status.
  - rewrite (OnChildDisconnected_other_run _ _ _ _ _ _ Hh Hd Hst) in Hstep.
    object_case Hstep Hh'.
  - rewrite (OnChildDisconnected_crashed_run _ _ _ _ _ _ _ Hh Hd Hst) in Hstep
      by by right.
    object_case Hstep Hh'.
  - rewrite (OnChildDisconnected_killed_run _ _ _ _ _ _ Hh Hd Hst) in Hstep.
    object_case Hstep Hh'.
  - rewrite (OnChildDisconnected_crashed_run _ _ _ _ _ _ _ Hh Hd Hst) in Hstep
      by by left.
    object_case Hstep Hh'.
  - destruct (disconnect_was_alive_ h) eqn:Hf.
    + rewrite (OnChildDisconnected_second_alive_run _ _ _ _ _ _ Hh Hd Hst Hf)
        in Hstep.
      object_case Hstep Hh'.
    + rewrite (OnChildDisconnected_first_alive_run _ _ _ _ _ _ Hh Hd Hst Hf)
        in Hstep.
      object_case Hstep Hh'. done.
Qed.

(** A call on [this] that leaves the object in place: its id is kept, the
    flag is set exactly by a "still running" observation, the handle is
    written exactly by [SetHandle] and by a successful launch. *)
Lemma step_receiver_fields c s s' this h h' :
  receiver c = Some this →
  step platform c s = Ok s' →
  heap s !! this = Some h → heap s' !! this = Some h' →
  ChildProcessData.id (data_ h') = ChildProcessData.id (data_ h)
  ∧ (disconnect_was_alive_ h' = true ↔
     disconnect_was_alive_ h = true ∨ observes_still_running platform c this h)
  ∧ ChildProcessData.handle (data_ h') = handle_left c this h.
Proof.
  intros Hrec Hstep Hh Hh'.
  rewrite (step_live _ _ _ _ _ Hrec Hh) in Hstep.
  unfold handle_left.
  destruct c; simplify_eq/=.
  - rewrite (delete_run _ _ _ Hh) in Hstep. object_case Hstep Hh'.
  - rewrite (Launch_run _ _ _ _ _ Hh) in Hstep. object_case Hstep Hh'.
    tauto.
  - rewrite (SetName_run _ _ _ _ Hh) in Hstep. object_case Hstep Hh'. tauto.
  - rewrite (SetHandle_run _ _ _ _ Hh) in Hstep. object_case Hstep Hh'.
    rewrite decide_True by done. simpl. tauto.
  - rewrite (ForceShutdown_run _ _ _ Hh) in Hstep. object_case Hstep Hh'.
    tauto.
  - destruct (child_process_ h) as [l|] eqn:Hl.
    + rewrite (SetTerminateChildOnShutdown_run _ _ _ _ _ Hh Hl) in Hstep.
      object_case Hstep Hh'. tauto.
    + revert Hstep. mrun Hh. by rewrite Hl.
  - unfold OnMessageReceived in Hstep.
    rewrite (call_delegate_run _ _ _ _ Hh) in Hstep. object_case Hstep Hh'.
    tauto.
  - rewrite (OnChannelConnected_run _ _ _ _ Hh) in Hstep.
    object_case Hstep Hh'. tauto.
  - unfold OnChannelError in Hstep.
    rewrite (call_delegate_run _ _ _ _ Hh) in Hstep. object_case Hstep Hh'.
    tauto.
  - unfold CanShutdown in Hstep.
    rewrite (call_delegate_run _ _ _ _ Hh) in Hstep. object_case Hstep Hh'.
    tauto.
  - destruct (OnChildDisconnected_fields _ _ _ _ _ _ Hh Hstep Hh')
      as (-> & Hf & Hst).
    simpl. tauto.
  - unfold OnWaitableEventSignaled in Hstep.
    destruct (OS_WIN platform).
    + destruct (Z.eqb_spec exit_code STILL_ACTIVE) as [->|Hne].
      * rewrite (delete_run _ _ _ Hh) in Hstep. object_case Hstep Hh'.
      * destruct (OnChildDisconnected_fields _ _ _ _ _ _ Hh Hstep Hh')
          as (-> & Hf & Hst).
        simpl. tauto.
    + unfold exec, mret, M_ret in Hstep. simplify_eq.
      split; [done|]. split; [|done]. split; [tauto|].
      intros [?|(_ & ? & _)]; done.
  - rewrite (Send_run _ _ _ _ Hh) in Hstep. object_case Hstep Hh'. tauto.
  - rewrite (ShutdownStarted_run _ _ _ Hh) in Hstep. object_case Hstep Hh'.
    tauto.
  - destruct (child_process_ h) as [l|] eqn:Hl.
    + destruct (decide (launcher_handle = kNullProcessHandle)) as [->|Hv].
      * rewrite (OnProcessLaunched_invalid_run _ _ _ _ Hh Hl) in Hstep.
        object_case Hstep Hh'.
      * rewrite (OnProcessLaunched_valid_run _ _ _ _ _ Hh Hl Hv) in Hstep.
        object_case Hstep Hh'. rewrite decide_True by done.
        apply Z.eqb_neq in Hv. rewrite Hv. simpl. tauto.
    + revert Hstep. mrun Hh. by rewrite Hl.
Qed.

End Object_changes.

(** ** Counting over the outcome of a call *)

Lemma count_deleted_after (f : Effect → bool) s this h effs :
  count f (ev_effect <$> trace (deleted_after s this h effs))
  = count f (ev_effect <$> trace s) + count f (effs ++ [Destroyed]).
Proof.
  unfold deleted_after. simpl.
  by rewrite fmap_app, count_app, effects_of_events.
Qed.

Lemma count_updated_after (f : Effect → bool) s this h h' effs :
  count f (ev_effect <$> trace (updated_after s this h h' effs))
  = count f (ev_effect <$> trace s) + count f effs.
Proof.
  unfold updated_after. simpl.
  by rewrite fmap_app, count_app, effects_of_events.
Qed.

Ltac count_effects h :=
  unfold counter, crash_callbacks, launched_callbacks, posted;
  rewrite ?count_deleted_after, ?count_updated_after;
  unfold was_alive_sample, terminal_effects, sample, count;
  destruct (disconnect_was_alive_ h); simpl;
  rewrite ?Z.eqb_refl; simpl; lia.

(** ** Auxiliary facts on states and executions *)

Lemma id_live_dec s i :
  no_longer_live s i
  ∨ ∃ p h, heap s !! p = Some h ∧ ChildProcessData.id (data_ h) = i.
Proof.
  destruct (decide (map_Forall
    (λ _ h, ChildProcessData.id (data_ h) ≠ i) (heap s))) as [Hdead|Hlive].
  - by left.
  - right. apply map_not_Forall in Hlive as (p & h & Hp & Hid); [|apply _].
    apply dec_stable in Hid. eauto.
Qed.

Lemma filter_not_in_self (l : list nat) : filter (λ q, q ∉ l) l = [].
Proof.
  apply elem_of_nil_inv. intros p [Hn Hp]%list_elem_of_filter. done.
Qed.

Lemma filter_all (P : nat → Prop) `{!∀ x, Decision (P x)} (l : list nat) :
  (∀ x, x ∈ l → P x) → filter P l = l.
Proof.
  induction l as [|x l IH]; intros Hall; [done|].
  rewrite filter_cons_True, IH; [done| |].
  - intros y Hy. apply Hall. by right.
  - apply Hall. by left.
Qed.

(** Deleting the elements of a duplicate-free container of live objects. *)
Lemma STLDeleteElements_run container s :
  NoDup container →
  (∀ p, p ∈ container → is_live s p) →
  ∃ s' new,
    STLDeleteElements container s = Ok ((), s')
    ∧ (∀ p, p ∈ container → heap s' !! p = None)
    ∧ (∀ p, p ∉ container → heap s' !! p = heap s !! p)
    ∧ g_child_process_list s'
      = filter (λ q, q ∉ container) (g_child_process_list s)
    ∧ last_unique_child_id s' = last_unique_child_id s
    ∧ trace s' = trace s ++ new
    ∧ ev_this <$> new = container
    ∧ Forall (λ e, ∃ h, heap s !! ev_this e = Some h
                        ∧ e = event_of (ev_this e) h Destroyed) new.
Proof.
  revert s. induction container as [|p rest IH]; intros s Hnd Hlive.
  - exists s, []. simpl. rewrite app_nil_r. repeat split; try done.
    + intros p Hp. by apply elem_of_nil in Hp.
    + symmetry. apply filter_all. intros q _. apply not_elem_of_nil.
  - apply NoDup_cons in Hnd as [Hp Hnd].
    destruct (Hlive p) as [h Hh]; [by left|].
    pose proof (delete_run s p h Hh) as Hdel. apply exec_Ok in Hdel.
    destruct (IH (deleted_after s p h []) Hnd)
      as (s' & new & Hrun & Hgone & Hkept & Hlist & Hlast & Htr & Hthis & Hnew).
    { intros q Hq. unfold is_live. simpl.
      rewrite lookup_delete_ne; [apply Hlive; by right|]. by intros ->. }
    exists s', (event_of p h Destroyed :: new).
    rewrite STLDeleteElements_cons, Hdel.
    split; [done|]. split; [|split; [|split; [|split; [|split; [|split]]]]].
    + intros q [->|Hq]%elem_of_cons; [|by apply Hgone].
      rewrite Hkept by done. simpl. apply lookup_delete_eq.
    + intros q [Hne Hq]%not_elem_of_cons.
      rewrite Hkept by done. simpl. by rewrite lookup_delete_ne.
    + rewrite Hlist. simpl. rewrite list_filter_filter.
      apply list_filter_iff. intros q. rewrite not_elem_of_cons. tauto.
    + by rewrite Hlast.
    + rewrite Htr. simpl. by rewrite <- app_assoc.
    + rewrite fmap_cons, Hthis. done.
    + constructor; [by exists h|].
      eapply Forall_impl; [exact Hnew|]. simpl.
      intros e (he & [Hne He]%lookup_delete_Some & Heq). eauto.
Qed.

Lemma run_app platform calls1 calls2 s :
  run platform (calls1 ++ calls2) s =
  match run platform calls1 s with
  | Ok s1 => run platform calls2 s1
  | Aborted why => Aborted why
  end.
Proof.
  revert s. induction calls1 as [|c calls1 IH]; intros s; [done|].
  simpl. destruct (step platform c s); [apply IH | done].
Qed.

Lemma observes_receiver platform c p h :
  observes_still_running platform c p h → receiver c = Some p.
Proof. destruct c; simpl; try done; by intros [-> _]. Qed.

Lemma writes_handle_receiver c p v :
  writes_handle c p = Some v → receiver c = Some p.
Proof.
  destruct c; simpl; try done; destruct (decide _) as [->|]; done.
Qed.

Lemma method_outcome_trace s s' this h :
  method_outcome s this h s' → ∃ new, trace s' = trace s ++ new.
Proof. intros [effs _|h' effs _ _|effs _|effs _]; simpl; eauto. Qed.

Lemma STLDeleteElements_trace container s s' :
  STLDeleteElements container s = Ok ((), s') →
  ∃ new, trace s' = trace s ++ new.
Proof.
  revert s. induction container as [|q rest IH]; intros s.
  - intros [= <-]. exists []. by rewrite app_nil_r.
  - rewrite STLDeleteElements_cons.
    destruct (delete_ q s) as [[[] s1]|] eqn:Hdel; [|done].
    intros (new & ->)%IH.
    destruct (heap s !! q) as [hq|] eqn:Hq.
    + apply exec_Ok in Hdel. rewrite (delete_run _ _ _ Hq) in Hdel.
      injection Hdel as <-. simpl. rewrite <- app_assoc. eauto.
    + by rewrite delete_dead in Hdel.
Qed.

Lemma step_trace platform c s s' :
  step platform c s = Ok s' → ∃ new, trace s' = trace s ++ new.
Proof.
  intros Hstep. destruct (receiver c) as [this|] eqn:Hrec.
  - destruct (step_method_outcome _ _ _ _ _ Hrec Hstep) as (h & Hh & Ho).
    by eapply method_outcome_trace.
  - unfold step in Hstep. rewrite Hrec in Hstep.
    destruct c; simplify_eq/=.
    + destruct (heap s !! this) as [h|] eqn:Hh.
      * revert Hstep. unfold exec, mbind, M_bind.
        by rewrite (Create_in_use _ _ _ _ _ Hh).
      * revert Hstep. unfold exec, mbind, M_bind.
        rewrite (Create_run _ _ _ _ Hh). intros [= <-]. simpl.
        exists []. by rewrite app_nil_r.
    + apply exec_Ok in Hstep. by eapply STLDeleteElements_trace.
Qed.

Lemma run_trace platform calls s s' :
  run platform calls s = Ok s' → ∃ new, trace s' = trace s ++ new.
Proof.
  revert s. induction calls as [|c calls IH]; intros s; simpl.
  - intros [= <-]. exists []. by rewrite app_nil_r.
  - destruct (step platform c s) as [s1|] eqn:Hstep; [|done].
    intros (new2 & ->)%IH. apply step_trace in Hstep as (new1 & ->).
    rewrite <- app_assoc. eauto.
Qed.

(** An object that is there after a call was either just constructed by it,
    or was there before; in the latter case either the call was made on it,
    or the call left it as it was. *)
Lemma step_object platform c s s' p h' :
  step platform c s = Ok s' →
  heap s' !! p = Some h' →
  (heap s !! p = None
   ∧ ∃ type delegate, c = Call_Create p type delegate
       ∧ h' = constructed type delegate (last_unique_child_id s + 1))
  ∨ (∃ h, heap s !! p = Some h
       ∧ (receiver c = Some p ∨ (receiver c ≠ Some p ∧ h' = h))).
Proof.
  intros Hstep Hp'. destruct (receiver c) as [this|] eqn:Hrec.
  - destruct (step_method_outcome _ _ _ _ _ Hrec Hstep) as (h & Hh & Ho).
    right. destruct (decide (p = this)) as [->|Hne]; [by eauto|].
    rewrite (method_outcome_frame _ _ _ _ _ Ho Hne) in Hp'.
    exists h'. split; [done|]. right. split; [congruence|done].
  - unfold step in Hstep. rewrite Hrec in Hstep.
    destruct c; simplify_eq/=.
    + destruct (heap s !! this) as [h|] eqn:Hh.
      * revert Hstep. unfold exec, mbind, M_bind.
        by rewrite (Create_in_use _ _ _ _ _ Hh).
      * revert Hstep. unfold exec, mbind, M_bind.
        rewrite (Create_run _ _ _ _ Hh). intros [= <-]. simpl in Hp'.
        apply lookup_insert_Some in Hp' as [[<- <-]|[Hne Hp]].
        -- left. eauto.
        -- right. exists h'. split; [done|]. right. done.
    + apply exec_Ok in Hstep. right. exists h'.
      split; [by eapply STLDeleteElements_shrinks|]. right. done.
Qed.

(** ** The properties of the specification *)

Section Properties.
Variable platform : Platform.

(** C3.  When [OnChildDisconnected] gets the status "crashed" (or "abnormal
    termination"), it calls the delegate's crash callback with the exit code,
    posts one CHILD_PROCESS_CRASHED notification and then the terminal
    CHILD_PROCESS_HOST_DISCONNECTED notification, adds one sample to
    ChildProcess.Crashed for the process kind, adds one to
    ChildProcess.CrashedWasAlive exactly when [disconnect_was_alive_] was
    set at entry, and deletes the object. *)
Theorem crashed_child_is_reported s this h os status exit_code :
  heap s !! this = Some h →
  dcheck_handle platform h →
  GetTerminationStatus h os = (status, exit_code) →
  status = TERMINATION_STATUS_PROCESS_CRASHED
    ∨ status = TERMINATION_STATUS_ABNORMAL_TERMINATION →
  let kind := ChildProcessData.type (data_ h) in
  let s' :=
    deleted_after s this h
      ([CallDelegate (delegate_ h) (Delegate_OnProcessCrashed exit_code);
        PostNotification NOTIFICATION_CHILD_PROCESS_CRASHED (data_ h);
        sample platform h "ChildProcess.Crashed"]
       ++ was_alive_sample platform h "ChildProcess.CrashedWasAlive"
       ++ terminal_effects platform h) in
  exec (OnChildDisconnected platform this os) s = Ok s'
  ∧ crash_callbacks s' = crash_callbacks s + 1
  ∧ posted NOTIFICATION_CHILD_PROCESS_CRASHED s'
    = posted NOTIFICATION_CHILD_PROCESS_CRASHED s + 1
  ∧ posted NOTIFICATION_CHILD_PROCESS_HOST_DISCONNECTED s'
    = posted NOTIFICATION_CHILD_PROCESS_HOST_DISCONNECTED s + 1
  ∧ counter "ChildProcess.Crashed" kind s'
    = counter "ChildProcess.Crashed" kind s + 1
  ∧ counter "ChildProcess.CrashedWasAlive" kind s'
    = counter "ChildProcess.CrashedWasAlive" kind s
      + (if disconnect_was_alive_ h then 1 else 0).
Proof.
  intros Hh Hd Hst Hcase kind s'. subst kind s'.
  split; [by eapply OnChildDisconnected_crashed_run|].
  repeat split; count_effects h.
Qed.

(** C4.  When [OnChildDisconnected] gets the status "killed", it adds one
    sample to ChildProcess.Killed (and one to ChildProcess.KilledWasAlive
    exactly when [disconnect_was_alive_] was set), does not call the
    delegate's crash callback, posts the terminal notification and deletes the
    object. *)
Theorem killed_child_is_counted s this h os exit_code :
  heap s !! this = Some h →
  dcheck_handle platform h →
  GetTerminationStatus h os
    = (TERMINATION_STATUS_PROCESS_WAS_KILLED, exit_code) →
  let kind := ChildProcessData.type (data_ h) in
  let s' :=
    deleted_after s this h
      ([sample platform h "ChildProcess.Killed"]
       ++ was_alive_sample platform h "ChildProcess.KilledWasAlive"
       ++ terminal_effects platform h) in
  exec (OnChildDisconnected platform this os) s = Ok s'
  ∧ counter "ChildProcess.Killed" kind s'
    = counter "ChildProcess.Killed" kind s + 1
  ∧ counter "ChildProcess.KilledWasAlive" kind s'
    = counter "ChildProcess.KilledWasAlive" kind s
      + (if disconnect_was_alive_ h then 1 else 0)
  ∧ crash_callbacks s' = crash_callbacks s
  ∧ posted NOTIFICATION_CHILD_PROCESS_HOST_DISCONNECTED s'
    = posted NOTIFICATION_CHILD_PROCESS_HOST_DISCONNECTED s + 1
  ∧ heap s' !! this = None.
Proof.
  intros Hh Hd Hst kind s'. subst kind s'.
  split; [by eapply OnChildDisconnected_killed_run|].
  repeat split; [count_effects h..|]. apply lookup_delete_eq.
Qed.

(** C10.  When [OnChildDisconnected] gets a status that is neither crashed,
    abnormal termination, killed nor still running, it adds one sample to
    ChildProcess.Disconnected, posts the terminal notification and deletes
    the object; it does not call the delegate's crash callback and adds
    nothing to the crash and kill histograms. *)
Theorem other_status_only_disconnects s this h os status exit_code :
  heap s !! this = Some h →
  dcheck_handle platform h →
  GetTerminationStatus h os = (status, exit_code) →
  status ≠ TERMINATION_STATUS_PROCESS_CRASHED →
  status ≠ TERMINATION_STATUS_ABNORMAL_TERMINATION →
  status ≠ TERMINATION_STATUS_PROCESS_WAS_KILLED →
  status ≠ TERMINATION_STATUS_STILL_RUNNING →
  let s' := deleted_after s this h (terminal_effects platform h) in
  exec (OnChildDisconnected platform this os) s = Ok s'
  ∧ counter "ChildProcess.Disconnected" (ChildProcessData.type (data_ h)) s'
    = counter "ChildProcess.Disconnected" (ChildProcessData.type (data_ h)) s
      + 1
  ∧ posted NOTIFICATION_CHILD_PROCESS_HOST_DISCONNECTED s'
    = posted NOTIFICATION_CHILD_PROCESS_HOST_DISCONNECTED s + 1
  ∧ heap s' !! this = None
  ∧ crash_callbacks s' = crash_callbacks s
  ∧ posted NOTIFICATION_CHILD_PROCESS_CRASHED s'
    = posted NOTIFICATION_CHILD_PROCESS_CRASHED s
  ∧ ∀ kind,
      counter "ChildProcess.Crashed" kind s'
        = counter "ChildProcess.Crashed" kind s
      ∧ counter "ChildProcess.CrashedWasAlive" kind s'
        = counter "ChildProcess.CrashedWasAlive" kind s
      ∧ counter "ChildProcess.Killed" kind s'
        = counter "ChildProcess.Killed" kind s
      ∧ counter "ChildProcess.KilledWasAlive" kind s'
        = counter "ChildProcess.KilledWasAlive" kind s.
Proof.
  intros Hh Hd Hst H1 H2 H3 H4 s'. subst s'.
  destruct status; try done.
  split; [by eapply OnChildDisconnected_other_run|].
  repeat split; try count_effects h. apply lookup_delete_eq.
Qed.

(** C2.  In a reachable state, when [OnChildDisconnected] gets the status
    "still running": with [disconnect_was_alive_] unset it sets the flag,
    schedules the one re-check (the wait-object on Windows, the task delayed
    by [kExitCodeWaitMs] elsewhere) and returns with nothing else posted or
    changed; with the flag set it gives up, posts the terminal notification
    and deletes the object.  Whatever is called afterwards, the history of
    this supervisor never holds more than one scheduled re-check. *)
Theorem still_running_is_rechecked_once calls s this h os exit_code :
  run platform calls initial = Ok s →
  heap s !! this = Some h →
  dcheck_handle platform h →
  GetTerminationStatus h os = (TERMINATION_STATUS_STILL_RUNNING, exit_code) →
  exec (OnChildDisconnected platform this os) s =
    Ok (if disconnect_was_alive_ h
        then deleted_after s this h
               (sample platform h "ChildProcess.DisconnectedAlive"
                :: terminal_effects platform h)
        else updated_after s this h (set_disconnect_was_alive h true)
               [recheck_effect platform h])
  ∧ is_recheck (recheck_effect platform h) = true
  ∧ is_any_notification (recheck_effect platform h) = false
  ∧ ∀ more s',
      run platform (calls ++ Call_OnChildDisconnected this os :: more) initial
        = Ok s' →
      count is_recheck (history (ChildProcessData.id (data_ h)) (trace s')) ≤ 1.
Proof.
  intros Hrun Hh Hd Hst. split; [|split; [|split]].
  - destruct (disconnect_was_alive_ h) eqn:Hf.
    + by eapply OnChildDisconnected_second_alive_run.
    + by eapply OnChildDisconnected_first_alive_run.
  - unfold recheck_effect. by destruct (OS_WIN platform).
  - unfold recheck_effect. by destruct (OS_WIN platform).
  - intros more s' Hrun'. apply reachable_Inv in Hrun' as HI.
    destruct (id_live_dec s' (ChildProcessData.id (data_ h)))
      as [Hdead|(p & h' & Hp & Hid)].
    + destruct (inv_dead _ HI _ Hdead) as [-> | Hl]; [by compute; lia|].
      apply lifecycle_alive_counts in Hl. lia.
    + pose proof (inv_live _ HI _ _ Hp) as Hl. rewrite Hid in Hl.
      apply lifecycle_alive_counts in Hl. lia.
Qed.

(** C6.  [OnProcessLaunched] on an object with a launch helper: when the
    helper reports no handle the object is deleted at once, with no launched
    and no crash callback, and it is in the registry no more; when the helper
    reports a handle, it is stored in the descriptor and the delegate's
    launched callback is called once. *)
Theorem launch_completion s this h l launcher_handle :
  heap s !! this = Some h →
  child_process_ h = Some l →
  (launcher_handle = kNullProcessHandle →
   let s' := deleted_after s this h [] in
   exec (OnProcessLaunched this launcher_handle) s = Ok s'
   ∧ launched_callbacks s' = launched_callbacks s
   ∧ crash_callbacks s' = crash_callbacks s
   ∧ heap s' !! this = None
   ∧ this ∉ GetIterator s')
  ∧ (launcher_handle ≠ kNullProcessHandle →
     let h' :=
       set_data h (ChildProcessData.with_handle (data_ h) launcher_handle) in
     let s' :=
       updated_after s this h h'
         [CallDelegate (delegate_ h) Delegate_OnProcessLaunched] in
     exec (OnProcessLaunched this launcher_handle) s = Ok s'
     ∧ heap s' !! this = Some h'
     ∧ ChildProcessData.handle (data_ h') = launcher_handle
     ∧ launched_callbacks s' = launched_callbacks s + 1
     ∧ crash_callbacks s' = crash_callbacks s).
Proof.
  intros Hh Hl. split.
  - intros -> s'. subst s'.
    split; [by eapply OnProcessLaunched_invalid_run|].
    repeat split; try count_effects h.
    + apply lookup_delete_eq.
    + unfold GetIterator. simpl. by intros [? _]%list_elem_of_filter.
  - intros Hv h' s'. subst h' s'.
    split; [by eapply OnProcessLaunched_valid_run|].
    repeat split; try count_effects h. apply lookup_insert_eq.
Qed.

(** C8.  After [ShutdownStarted] or [ForceShutdown] the object is no longer
    enumerated, while it is still there with its descriptor unchanged;
    [ShutdownStarted] causes no effect at all, [ForceShutdown] tells the
    channel to shut down and nothing else. *)
Theorem shutdown_unregisters_at_once s this h :
  heap s !! this = Some h →
  exec (ShutdownStarted this) s = Ok (unlisted_after s this h [])
  ∧ exec (ForceShutdown this) s
    = Ok (unlisted_after s this h [ChannelForceShutdown])
  ∧ trace (unlisted_after s this h []) = trace s
  ∧ trace (unlisted_after s this h [ChannelForceShutdown])
    = trace s ++ [event_of this h ChannelForceShutdown]
  ∧ ∀ effs,
      (this ∉ GetIterator (unlisted_after s this h effs))
      ∧ heap (unlisted_after s this h effs) = heap s
      ∧ ∀ p, p ≠ this →
          (p ∈ GetIterator (unlisted_after s this h effs) ↔ p ∈ GetIterator s).
Proof.
  intros Hh. split; [by apply ShutdownStarted_run|].
  split; [by apply ForceShutdown_run|].
  split; [simpl; by rewrite app_nil_r|]. split; [done|].
  intros effs. unfold GetIterator. simpl. split; [|split; [done|]].
  - by intros [? _]%list_elem_of_filter.
  - intros p Hne. rewrite list_elem_of_filter. tauto.
Qed.

(** Over any execution, a supervisor posts the terminal notification at
    most once; when it is posted, nothing of the kind precedes it, the only
    thing the supervisor does afterwards is run its destructor, and the
    supervisor is gone. *)
Lemma disconnected_is_last calls s i :
  run platform calls initial = Ok s →
  count is_disconnected (history i (trace s)) ≤ 1
  ∧ ∀ before eff after,
      history i (trace s) = before ++ eff :: after →
      is_disconnected eff = true →
      after = [Destroyed]
      ∧ count is_disconnected before = 0
      ∧ count is_any_notification after = 0
      ∧ no_longer_live s i.
Proof.
  intros HI%reachable_Inv.
  destruct (id_live_dec s i) as [Hdead|(p & h & Hp & Hid)].
  - destruct (inv_dead _ HI _ Hdead) as [Hnil | Hl].
    + rewrite Hnil. split; [by compute; lia|].
      intros before eff after Heq. by destruct before.
    + split; [by apply lifecycle_alive_counts in Hl as [_ ?]|].
      intros before eff after Heq Heff. rewrite Heq in Hl.
      apply lifecycle_disconnected_last in Hl as [Hb [[_ ?]|[-> _]]]; done.
  - pose proof (inv_live _ HI _ _ Hp) as Hl. rewrite Hid in Hl.
    apply lifecycle_alive_alive in Hl as (Hnone & _).
    split; [lia|]. intros before eff after Heq Heff.
    rewrite Heq, count_app, count_cons, Heff in Hnone. lia.
Qed.

(** C5.  A newly constructed object has [disconnect_was_alive_] unset.  For
    an object that is there before and after a call, the flag is set after
    the call exactly when it was set before or the call is the one in which
    [OnChildDisconnected] gets the status "still running": no call resets
    it, and nothing else sets it.  Over an execution, the flag of a live
    supervisor is set exactly when its one re-check has been scheduled, and
    once set it is set in every later state in which the supervisor is
    live. *)
Theorem disconnect_was_alive_only_rises c s s' p h' :
  step platform c s = Ok s' →
  heap s' !! p = Some h' →
  match heap s !! p with
  | None => disconnect_was_alive_ h' = false
  | Some h =>
    disconnect_was_alive_ h' = true ↔
    disconnect_was_alive_ h = true ∨ observes_still_running platform c p h
  end
  ∧ ∀ calls,
      run platform calls initial = Ok s →
      (disconnect_was_alive_ h' = true ↔
       count is_recheck
         (history (ChildProcessData.id (data_ h')) (trace s')) = 1)
      ∧ ∀ more s'' q h'',
          run platform more s' = Ok s'' →
          heap s'' !! q = Some h'' →
          ChildProcessData.id (data_ h'') = ChildProcessData.id (data_ h') →
          disconnect_was_alive_ h' = true →
          disconnect_was_alive_ h'' = true.
Proof.
  intros Hstep Hp'. split.
  - destruct (step_object _ _ _ _ _ _ Hstep Hp')
      as [(-> & type & delegate & -> & ->)
         |(h & Hp & [Hrec|(Hrec & ->)])]; [done|rewrite Hp..].
    + by destruct (step_receiver_fields _ _ _ _ _ _ _ Hrec Hstep Hp Hp')
        as (_ & Hflag & _).
    + split; [tauto|]. intros [?|Ho%observes_receiver]; done.
  - intros calls HI%reachable_Inv.
    pose proof (step_Inv _ _ _ _ HI Hstep) as HI'.
    pose proof (inv_live _ HI' _ _ Hp') as Hl. split.
    + apply lifecycle_alive_alive in Hl as (_ & _ & _ & ->).
      by destruct (disconnect_was_alive_ h').
    + intros more s'' q h'' Hmore Hq Hid Hset.
      pose proof (run_Inv _ _ _ _ HI' Hmore) as HI''.
      pose proof (inv_live _ HI'' _ _ Hq) as Hl''.
      apply run_trace in Hmore as (new & Htr).
      rewrite Hid, Htr, history_app, lifecycle_app, Hl in Hl''. simpl in Hl''.
      apply lifecycle_alive_alive in Hl'' as (_ & _ & Hrise & _). auto.
Qed.

(** C7.  In a reachable state, [TerminateAll] runs to completion; it deletes
    the objects of the registry as it was at the call, each one once and in
    the order of the list; afterwards none of them is live, the registry is
    empty, and the objects that were not registered are untouched. *)
Theorem TerminateAll_deletes_the_snapshot calls s :
  run platform calls initial = Ok s →
  ∃ s' new,
    exec TerminateAll s = Ok s'
    ∧ trace s' = trace s ++ new
    ∧ ev_this <$> new = GetIterator s
    ∧ NoDup (GetIterator s)
    ∧ Forall (λ e, ∃ h, heap s !! ev_this e = Some h
                        ∧ e = event_of (ev_this e) h Destroyed) new
    ∧ (∀ p, p ∈ GetIterator s → heap s' !! p = None)
    ∧ (∀ p, p ∉ GetIterator s → heap s' !! p = heap s !! p)
    ∧ GetIterator s' = [].
Proof.
  intros HI%reachable_Inv. unfold GetIterator.
  destruct (STLDeleteElements_run (g_child_process_list s) s)
    as (s' & new & Hrun & Hgone & Hkept & Hlist & _ & Htr & Hthis & Hnew).
  { apply HI. }
  { apply HI. }
  exists s', new. split; [by apply exec_Ok|].
  repeat split; try done.
  - apply HI.
  - by rewrite Hlist, filter_not_in_self.
Qed.

(** C9, as the code has it.  For an object that is there before and after
    a call, the handle of its descriptor after the call is the one
    [SetHandle] was given, or the valid handle the launch helper reported to
    [OnProcessLaunched], and in every other case the handle it had before;
    neither of the two looks at the handle already stored. *)
Theorem handle_written_by_SetHandle_and_launch c s s' p h h' :
  step platform c s = Ok s' →
  heap s !! p = Some h →
  heap s' !! p = Some h' →
  ChildProcessData.handle (data_ h') =
  match writes_handle c p with
  | Some handle => handle
  | None => ChildProcessData.handle (data_ h)
  end.
Proof.
  intros Hstep Hp Hp'.
  destruct (step_object _ _ _ _ _ _ Hstep Hp')
    as [(Hnone & _)|(h0 & Hp0 & [Hrec|(Hrec & ->)])]; [congruence|..].
  - by destruct (step_receiver_fields _ _ _ _ _ _ _ Hrec Hstep Hp Hp')
      as (_ & _ & Hhandle).
  - assert (h0 = h) as -> by congruence.
    destruct (writes_handle c p) as [v|] eqn:Hw; [|done].
    by apply writes_handle_receiver in Hw.
Qed.

End Properties.

(** ** The two sentences that the code does not satisfy *)

(** C1 as written fails: a launch that fails destroys the supervisor, and no
    terminal notification is ever posted for it. *)
Lemma failed_launch_posts_no_disconnected :
  match run example_posix failed_launch initial with
  | Ok s =>
    heap s = ∅
    ∧ count is_destroyed (history 1 (trace s)) = 1
    ∧ count is_disconnected (history 1 (trace s)) = 0
  | Aborted _ => False
  end.
Proof. vm_compute. repeat split. Qed.

(** So does the wait-object callback on Windows when the exit code is
    [STILL_ACTIVE]: the object is deleted, [OnChildDisconnected] is not run
    again. *)
Lemma still_active_posts_no_disconnected :
  match
    run example_windows
      [Call_Create 7 3 100; Call_SetHandle 7 55;
       Call_OnChildDisconnected 7
         (answering TERMINATION_STATUS_STILL_RUNNING 0);
       Call_OnWaitableEventSignaled 7 STILL_ACTIVE
         (answering TERMINATION_STATUS_STILL_RUNNING 0)] initial
  with
  | Ok s =>
    heap s = ∅
    ∧ history 1 (trace s) = [StartWatching 55; Destroyed]
  | Aborted _ => False
  end.
Proof. vm_compute. repeat split. Qed.

Lemma not_exactly_one_disconnected : ¬ exactly_one_disconnected example_posix.
Proof.
  intros Hclaim. specialize (Hclaim failed_launch).
  vm_compute in Hclaim. specialize (Hclaim _ 1%Z eq_refl).
  vm_compute in Hclaim. specialize (Hclaim eq_refl). discriminate.
Qed.

(** C9 as written fails: a second [SetHandle] replaces the handle stored by
    the first. *)
Lemma second_SetHandle_overwrites :
  handle_after example_posix
    [Call_Create 7 3 100; Call_SetHandle 7 55] 7 = Some 55%Z
  ∧ handle_after example_posix
      [Call_Create 7 3 100; Call_SetHandle 7 55; Call_SetHandle 7 66] 7
    = Some 66%Z.
Proof. split; vm_compute; reflexivity. Qed.

Lemma not_handle_set_at_most_once : ¬ handle_set_at_most_once example_posix.
Proof.
  intros Hclaim.
  specialize (Hclaim [Call_Create 7 3 100; Call_SetHandle 7 55]
                (Call_SetHandle 7 66) 7 55%Z 66%Z).
  assert (66 = 55)%Z; [|done].
  apply Hclaim; [vm_compute; reflexivity | done | vm_compute; reflexivity].
Qed.

(** ** The theorems at sample inputs *)

Lemma still_running_is_rechecked_once_witness :
  run example_posix [Call_Create 7 3 100; Call_SetHandle 7 55] initial
    = Ok (example_state false)
  ∧ heap (example_state false) !! 7 = Some (example_host false)
  ∧ exec (OnChildDisconnected example_posix 7
            (answering TERMINATION_STATUS_STILL_RUNNING 0))
      (example_state false)
    = Ok (updated_after (example_state false) 7 (example_host false)
            (example_host true) [PostDelayedTask 250]).
Proof.
  split; [vm_compute; reflexivity|]. split; [vm_compute; reflexivity|].
  refine (proj1 (still_running_is_rechecked_once example_posix
    [Call_Create 7 3 100; Call_SetHandle 7 55] (example_state false) 7
    (example_host false) (answering TERMINATION_STATUS_STILL_RUNNING 0) 0
    _ _ _ _)).
  - vm_compute. reflexivity.
  - vm_compute. reflexivity.
  - intros _. discriminate.
  - reflexivity.
Defined.

Lemma crashed_child_is_reported_witness :
  heap (example_state true) !! 7 = Some (example_host true)
  ∧ exec (OnChildDisconnected example_posix 7
            (answering TERMINATION_STATUS_PROCESS_CRASHED 11))
      (example_state true)
    = Ok (deleted_after (example_state true) 7 (example_host true)
            [CallDelegate 100 (Delegate_OnProcessCrashed 11);
             PostNotification NOTIFICATION_CHILD_PROCESS_CRASHED
               (data_ (example_host true));
             Histogram "ChildProcess.Crashed" 3 12;
             Histogram "ChildProcess.CrashedWasAlive" 3 12;
             Histogram "ChildProcess.Disconnected" 3 12;
             PostNotification NOTIFICATION_CHILD_PROCESS_HOST_DISCONNECTED
               (data_ (example_host true))]).
Proof.
  split; [vm_compute; reflexivity|].
  refine (proj1 (crashed_child_is_reported example_posix (example_state true)
    7 (example_host true) (answering TERMINATION_STATUS_PROCESS_CRASHED 11)
    TERMINATION_STATUS_PROCESS_CRASHED 11 _ _ _ _)).
  - vm_compute. reflexivity.
  - intros _. discriminate.
  - reflexivity.
  - left. reflexivity.
Defined.

Lemma killed_child_is_counted_witness :
  heap (example_state false) !! 7 = Some (example_host false)
  ∧ exec (OnChildDisconnected example_posix 7
            (answering TERMINATION_STATUS_PROCESS_WAS_KILLED 9))
      (example_state false)
    = Ok (deleted_after (example_state false) 7 (example_host false)
            [Histogram "ChildProcess.Killed" 3 12;
             Histogram "ChildProcess.Disconnected" 3 12;
             PostNotification NOTIFICATION_CHILD_PROCESS_HOST_DISCONNECTED
               (data_ (example_host false))]).
Proof.
  split; [vm_compute; reflexivity|].
  refine (proj1 (killed_child_is_counted example_posix (example_state false)
    7 (example_host false) (answering TERMINATION_STATUS_PROCESS_WAS_KILLED 9)
    9 _ _ _)).
  - vm_compute. reflexivity.
  - intros _. discriminate.
  - reflexivity.
Defined.

Lemma disconnect_was_alive_only_rises_witness :
  step example_posix
    (Call_OnChildDisconnected 7 (answering TERMINATION_STATUS_STILL_RUNNING 0))
    (example_state false)
  = Ok (updated_after (example_state false) 7 (example_host false)
          (example_host true) [PostDelayedTask 250])
  ∧ (disconnect_was_alive_ (example_host true) = true ↔
     disconnect_was_alive_ (example_host false) = true
     ∨ observes_still_running example_posix
         (Call_OnChildDisconnected 7
            (answering TERMINATION_STATUS_STILL_RUNNING 0))
         7 (example_host false)).
Proof.
  split; [vm_compute; reflexivity|].
  exact (proj1 (disconnect_was_alive_only_rises example_posix
    (Call_OnChildDisconnected 7 (answering TERMINATION_STATUS_STILL_RUNNING 0))
    (example_state false)
    (updated_after (example_state false) 7 (example_host false)
       (example_host true) [PostDelayedTask 250])
    7 (example_host true) eq_refl eq_refl)).
Defined.

Lemma launch_completion_witness :
  heap example_launching_state !! 7 = Some example_launching
  ∧ exec (OnProcessLaunched 7 kNullProcessHandle) example_launching_state
    = Ok (deleted_after example_launching_state 7 example_launching []).
Proof.
  split; [vm_compute; reflexivity|].
  refine (proj1 (proj1 (launch_completion example_launching_state 7
    example_launching {| launch_cmd_line := ["--type=plugin"] |}
    kNullProcessHandle _ _) eq_refl)).
  - vm_compute. reflexivity.
  - reflexivity.
Defined.

Lemma TerminateAll_deletes_the_snapshot_witness :
  ∃ s,
    run example_posix
      [Call_Create 7 3 100; Call_Create 8 3 100; Call_Create 9 4 100;
       Call_ShutdownStarted 8] initial = Ok s
    ∧ ∃ s' new,
        exec TerminateAll s = Ok s'
        ∧ trace s' = trace s ++ new
        ∧ ev_this <$> new = GetIterator s.
Proof.
  eexists. split; [vm_compute; reflexivity|].
  destruct (TerminateAll_deletes_the_snapshot example_posix
    [Call_Create 7 3 100; Call_Create 8 3 100; Call_Create 9 4 100;
     Call_ShutdownStarted 8] _ ltac:(vm_compute; reflexivity))
    as (s' & new & Hexec & Htrace & Hthis & _).
  exists s', new. split; [exact Hexec|]. split; [exact Htrace|exact Hthis].
Defined.

Lemma shutdown_unregisters_at_once_witness :
  heap (example_state false) !! 7 = Some (example_host false)
  ∧ exec (ShutdownStarted 7) (example_state false)
    = Ok (unlisted_after (example_state false) 7 (example_host false) []).
Proof.
  split; [vm_compute; reflexivity|].
  refine (proj1 (shutdown_unregisters_at_once (example_state false) 7
    (example_host false) _)).
  vm_compute. reflexivity.
Defined.

Lemma handle_written_by_SetHandle_and_launch_witness :
  step example_posix (Call_SetHandle 7 66) (example_state false)
  = Ok (updated_after (example_state false) 7 (example_host false)
          (set_data (example_host false)
             (ChildProcessData.with_handle (data_ (example_host false)) 66))
          [])
  ∧ ChildProcessData.handle
      (data_ (set_data (example_host false)
                (ChildProcessData.with_handle (data_ (example_host false)) 66)))
    = 66%Z.
Proof.
  split; [vm_compute; reflexivity|].
  exact (handle_written_by_SetHandle_and_launch example_posix
    (Call_SetHandle 7 66) (example_state false)
    (updated_after (example_state false) 7 (example_host false)
       (set_data (example_host false)
          (ChildProcessData.with_handle (data_ (example_host false)) 66)) [])
    7 (example_host false)
    (set_data (example_host false)
       (ChildProcessData.with_handle (data_ (example_host false)) 66))
    eq_refl eq_refl eq_refl).
Defined.

Lemma other_status_only_disconnects_witness :
  heap (example_state false) !! 7 = Some (example_host false)
  ∧ exec (OnChildDisconnected example_posix 7
            (answering TERMINATION_STATUS_NORMAL_TERMINATION 0))
      (example_state false)
    = Ok (deleted_after (example_state false) 7 (example_host false)
            [Histogram "ChildProcess.Disconnected" 3 12;
             PostNotification NOTIFICATION_CHILD_PROCESS_HOST_DISCONNECTED
               (data_ (example_host false))]).
Proof.
  split; [vm_compute; reflexivity|].
  refine (proj1 (other_status_only_disconnects example_posix
    (example_state false) 7 (example_host false)
    (answering TERMINATION_STATUS_NORMAL_TERMINATION 0)
    TERMINATION_STATUS_NORMAL_TERMINATION 0 _ _ _ _ _ _ _)).
  - vm_compute. reflexivity.
  - intros _. discriminate.
  - reflexivity.
  - discriminate.
  - discriminate.
  - discriminate.
  - discriminate.
Defined.

(** ** Further properties of the code *)

Section More_single_calls.
Variable platform : Platform.

(** [OnChildDisconnected] on a live object, in one equation. *)
Lemma OnChildDisconnected_run s this h os :
  heap s !! this = Some h →
  exec (OnChildDisconnected platform this os) s =
  if DCHECK_IS_ON platform
     && (ChildProcessData.handle (data_ h) =? kNullProcessHandle)%Z
  then Aborted DCHECK_FAILURE
  else Ok (OnChildDisconnected_leaves platform s this h
             (GetTerminationStatus h os).1 (GetTerminationStatus h os).2).
Proof.
  intros Hh.
  destruct (dcheck_handle_dec platform h) as [Hd|Hd].
  - rewrite <- (negb_involutive (_ =? _)%Z), (dcheck_handle_run _ _ Hd).
    destruct (GetTerminationStatus h os) as [status exit_code] eqn:Hst.
    unfold OnChildDisconnected_leaves. simpl. destruct status.
    + by eapply OnChildDisconnected_other_run.
    + eapply OnChildDisconnected_crashed_run; eauto.
    + by eapply OnChildDisconnected_killed_run.
    + eapply OnChildDisconnected_crashed_run; eauto.
    + destruct (disconnect_was_alive_ h) eqn:Hf.
      * by eapply OnChildDisconnected_second_alive_run.
      * by eapply OnChildDisconnected_first_alive_run.
  - rewrite (OnChildDisconnected_dcheck_fails _ _ _ _ _ Hh Hd).
    unfold dcheck_handle in Hd.
    destruct (DCHECK_IS_ON platform); [|by destruct Hd]. simpl.
    destruct (Z.eqb_spec (ChildProcessData.handle (data_ h))
                kNullProcessHandle); [done|]. by destruct Hd.
Qed.

(** Every method on a live object, in closed form. *)
Lemma step_leaves c s this h :
  receiver c = Some this →
  heap s !! this = Some h →
  step platform c s = call_leaves platform c s this h.
Proof.
  intros Hrec Hh. rewrite (step_live _ _ _ _ _ Hrec Hh).
  destruct c; simplify_eq/=.
  - by apply delete_run.
  - by apply Launch_run.
  - by apply SetName_run.
  - by apply SetHandle_run.
  - by apply ForceShutdown_run.
  - destruct (child_process_ h) as [l|] eqn:Hl.
    + by eapply SetTerminateChildOnShutdown_run.
    + mrun Hh. by rewrite Hl.
  - by apply call_delegate_run.
  - by apply OnChannelConnected_run.
  - by apply call_delegate_run.
  - by apply call_delegate_run.
  - by apply OnChildDisconnected_run.
  - unfold OnWaitableEventSignaled. destruct (OS_WIN platform); [|done].
    destruct (exit_code =? STILL_ACTIVE)%Z.
    + by apply delete_run.
    + by apply OnChildDisconnected_run.
  - by apply Send_run.
  - by apply ShutdownStarted_run.
  - destruct (child_process_ h) as [l|] eqn:Hl.
    + destruct (Z.eqb_spec launcher_handle kNullProcessHandle) as [->|Hv].
      * by eapply OnProcessLaunched_invalid_run.
      * by eapply OnProcessLaunched_valid_run.
    + mrun Hh. by rewrite Hl.
Qed.

End More_single_calls.

(** Case analysis on the closed form of a call. *)
Ltac leaves_cases :=
  unfold call_leaves in *; cbv beta iota zeta in *;
  unfold OnChildDisconnected_leaves in *;
  repeat case_match; simplify_eq.

Ltac method_cases c Hrec :=
  destruct c; simpl in Hrec; simplify_eq; leaves_cases.

Section Every_call.
Variable platform : Platform.

(** A call is the constructor on free storage, the bulk destruction, or a
    method on a live object. *)
Lemma step_any c s s' :
  step platform c s = Ok s' →
  (∃ this type delegate,
      c = Call_Create this type delegate ∧ heap s !! this = None
      ∧ s' = created s this type delegate)
  ∨ (c = Call_TerminateAll
     ∧ STLDeleteElements (g_child_process_list s) s = Ok ((), s'))
  ∨ (∃ this h,
        receiver c = Some this ∧ heap s !! this = Some h
        ∧ call_leaves platform c s this h = Ok s').
Proof.
  intros Hstep. destruct (receiver c) as [this|] eqn:Hrec.
  - right. right. destruct (heap s !! this) as [h|] eqn:Hh.
    + exists this, h. by rewrite <- (step_leaves _ _ _ _ _ Hrec Hh).
    + by rewrite (step_dead _ _ _ _ Hrec Hh) in Hstep.
  - unfold step in Hstep. rewrite Hrec in Hstep.
    destruct c; simplify_eq/=.
    + left. destruct (heap s !! this) as [h|] eqn:Hh.
      * revert Hstep. unfold exec, mbind, M_bind.
        by rewrite (Create_in_use _ _ _ _ _ Hh).
      * revert Hstep. unfold exec, mbind, M_bind.
        rewrite (Create_run _ _ _ _ Hh). intros [= <-]. eauto 6.
    + right. left. split; [done|]. by apply exec_Ok.
Qed.

(** X4.  Over any call, an object that is there before and after keeps the
    kind, the unique id, the delegate and the channel it was constructed
    with; its name changes only by [SetName], and its launch helper only by
    [Launch], which installs a new one: no call takes the helper away. *)
Theorem descriptor_fields_kept c s s' p h h' :
  step platform c s = Ok s' →
  heap s !! p = Some h →
  heap s' !! p = Some h' →
  ChildProcessData.type (data_ h') = ChildProcessData.type (data_ h)
  ∧ ChildProcessData.id (data_ h') = ChildProcessData.id (data_ h)
  ∧ delegate_ h' = delegate_ h
  ∧ child_process_host_ h' = child_process_host_ h
  ∧ ChildProcessData.name (data_ h')
    = default (ChildProcessData.name (data_ h)) (writes_name c p)
  ∧ child_process_ h'
    = match installs_launcher c p with
      | Some l => Some l
      | None => child_process_ h
      end.
Proof.
  intros Hstep Hp Hp'.
  destruct (step_any _ _ _ Hstep)
    as [(this & type & delegate & -> & Hnone & ->)
       |[(-> & Hdel)|(this & h0 & Hrec & Hh & Hleaves)]].
  - simpl in *. rewrite lookup_insert_ne in Hp' by congruence.
    by simplify_eq.
  - apply (STLDeleteElements_shrinks _ _ _ _ _ Hdel) in Hp'. by simplify_eq.
  - destruct (decide (p = this)) as [->|Hne].
    + simplify_eq. destruct c; simplify_eq/=; leaves_cases;
        simpl in Hp'; rewrite ?lookup_insert_eq, ?lookup_delete_eq in Hp';
        simplify_eq; rewrite ?decide_True by done; done.
    + assert (heap s' !! p = heap s !! p) as Hsame.
      { destruct c; simplify_eq/=; leaves_cases; simpl;
          rewrite ?lookup_insert_ne, ?lookup_delete_ne by done; done. }
      rewrite Hsame in Hp'. simplify_eq.
      destruct c; simplify_eq/=; rewrite ?decide_False by done; done.
Qed.

(** The effects of an outcome, as a list appended to those before. *)
Lemma effects_after_effects s this h effs :
  ev_effect <$> trace (after_effects s this h effs)
  = (ev_effect <$> trace s) ++ effs.
Proof. simpl. by rewrite fmap_app, effects_of_events. Qed.

Lemma effects_updated_after s this h h' effs :
  ev_effect <$> trace (updated_after s this h h' effs)
  = (ev_effect <$> trace s) ++ effs.
Proof. simpl. by rewrite fmap_app, effects_of_events. Qed.

Lemma effects_unlisted_after s this h effs :
  ev_effect <$> trace (unlisted_after s this h effs)
  = (ev_effect <$> trace s) ++ effs.
Proof. simpl. by rewrite fmap_app, effects_of_events. Qed.

Lemma effects_deleted_after s this h effs :
  ev_effect <$> trace (deleted_after s this h effs)
  = (ev_effect <$> trace s) ++ effs ++ [Destroyed].
Proof. simpl. by rewrite fmap_app, effects_of_events. Qed.

(** The bulk destruction records destructor runs and nothing else. *)
Lemma STLDeleteElements_effects container s s' :
  STLDeleteElements container s = Ok ((), s') →
  ∃ n, ev_effect <$> trace s' = (ev_effect <$> trace s) ++ replicate n Destroyed.
Proof.
  revert s. induction container as [|q rest IH]; intros s.
  - intros [= <-]. exists 0. by rewrite app_nil_r.
  - rewrite STLDeleteElements_cons.
    destruct (delete_ q s) as [[[] s1]|] eqn:Hdel; [|done].
    intros (n & ->)%IH.
    destruct (heap s !! q) as [hq|] eqn:Hq.
    + apply exec_Ok in Hdel. rewrite (delete_run _ _ _ Hq) in Hdel.
      injection Hdel as <-. rewrite effects_deleted_after. simpl.
      exists (S n). by rewrite <- app_assoc.
    + by rewrite delete_dead in Hdel.
Qed.

Lemma count_replicate_Destroyed (f : Effect → bool) n :
  f Destroyed = false → count f (replicate n Destroyed) = 0.
Proof.
  intros Hf. induction n as [|n IH]; [done|].
  simpl. by rewrite count_cons, Hf, IH.
Qed.

Lemma accounts_agree_app effs1 effs2 :
  accounts_agree effs1 → accounts_agree effs2 →
  accounts_agree (effs1 ++ effs2).
Proof. unfold accounts_agree. rewrite !count_app. lia. Qed.

Ltac effects_of_outcome :=
  rewrite ?effects_after_effects, ?effects_updated_after,
    ?effects_unlisted_after, ?effects_deleted_after.

(** What one call adds to the trace keeps the accounts. *)
Lemma step_accounts c s s' :
  step platform c s = Ok s' →
  ∃ new, ev_effect <$> trace s' = (ev_effect <$> trace s) ++ new
         ∧ accounts_agree new.
Proof.
  intros Hstep.
  destruct (step_any _ _ _ Hstep)
    as [(this & type & delegate & -> & Hnone & ->)
       |[(-> & Hdel)|(this & h & Hrec & Hh & Hleaves)]].
  - exists []. simpl. rewrite app_nil_r. by compute; repeat split; lia.
  - apply STLDeleteElements_effects in Hdel as (n & ->).
    eexists. split; [done|].
    unfold accounts_agree. rewrite !count_replicate_Destroyed by done. lia.
  - method_cases c Hrec; effects_of_outcome;
      try (eexists; split; [reflexivity|];
           unfold accounts_agree, was_alive_sample, terminal_effects,
             launch_effects, recheck_effect, sample, count;
           repeat case_match; simpl; lia).
    exists []. rewrite app_nil_r. split; [done|].
    by compute; repeat split; lia.
Qed.

(** X14.  Over any execution the accounts agree: the delegate's crash
    callback, the "crashed" notification and the ChildProcess.Crashed
    histogram have been used equally often, and so have the terminal
    notification and ChildProcess.Disconnected; every *WasAlive sample comes
    with a sample of its histogram, and every crash, kill and
    disconnected-alive sample with a ChildProcess.Disconnected sample. *)
Theorem accounts_agree_in_every_execution calls s :
  run platform calls initial = Ok s →
  accounts_agree (ev_effect <$> trace s).
Proof.
  assert (∀ calls s0 s1, accounts_agree (ev_effect <$> trace s0) →
            run platform calls s0 = Ok s1 →
            accounts_agree (ev_effect <$> trace s1)) as Hgen.
  { clear. intros calls. induction calls as [|c calls IH]; intros s0 s1 H0.
    - by intros [= <-].
    - simpl. destruct (step platform c s0) as [s'|] eqn:Hstep; [|done].
      apply IH. apply step_accounts in Hstep as (new & -> & Hnew).
      by apply accounts_agree_app. }
  apply Hgen. by compute; repeat split; lia.
Qed.

(** X15.  Notifications are posted by [OnChannelConnected] and by the calls
    that run [OnChildDisconnected], and by no other call: the "connected"
    notification once per [OnChannelConnected] and never otherwise, and no
    notification at all by any other method, the constructor, the destructor
    or [TerminateAll]. *)
Theorem notifications_only_from_channel_events c s s' :
  step platform c s = Ok s' →
  posted NOTIFICATION_CHILD_PROCESS_HOST_CONNECTED s'
  = posted NOTIFICATION_CHILD_PROCESS_HOST_CONNECTED s
    + (if c is Call_OnChannelConnected _ _ then 1 else 0)
  ∧ (may_notify c = false → ∀ ty, posted ty s' = posted ty s).
Proof.
  intros Hstep. unfold posted.
  destruct (step_any _ _ _ Hstep)
    as [(this & type & delegate & -> & Hnone & ->)
       |[(-> & Hdel)|(this & h & Hrec & Hh & Hleaves)]].
  - simpl. split; [lia|done].
  - apply STLDeleteElements_effects in Hdel as (n & ->).
    rewrite count_app, count_replicate_Destroyed by done.
    split; [simpl; lia|]. intros _ ty.
    rewrite count_app, count_replicate_Destroyed by done. lia.
  - split.
    + method_cases c Hrec; effects_of_outcome;
        rewrite ?count_app;
        unfold was_alive_sample, terminal_effects, launch_effects,
          recheck_effect, sample, count;
        repeat case_match; simpl; lia.
    + intros Hquiet ty.
      method_cases c Hrec; effects_of_outcome;
        rewrite ?count_app;
        unfold launch_effects, count; repeat case_match; simpl; lia.
Qed.

End Every_call.

(** ** Sequences of calls on one object *)

Lemma seq_run {B} (m : M ()) (k : M B) s s1 :
  exec m s = Ok s1 → (m ≫= λ _, k) s = k s1.
Proof. intros H%exec_Ok. unfold mbind, M_bind. by rewrite H. Qed.

Lemma seq_exec (m k : M ()) s s1 :
  exec m s = Ok s1 → exec (m ≫= λ _, k) s = exec k s1.
Proof. intros H. unfold exec at 1. by rewrite (seq_run _ _ _ _ H). Qed.

Lemma GetData_run s this h :
  heap s !! this = Some h → GetData this s = Ok (data_ h, s).
Proof. intros Hh. unfold GetData, mbind, M_bind, deref. by rewrite Hh. Qed.

Lemma unlisted_twice s this h effs1 effs2 :
  unlisted_after (unlisted_after s this h effs1) this h effs2
  = unlisted_after s this h (effs1 ++ effs2).
Proof.
  unfold unlisted_after. simpl. f_equal.
  - apply list_filter_filter_l. done.
  - by rewrite fmap_app, app_assoc.
Qed.

(** A bulk destruction that completes was given distinct live objects. *)
Lemma STLDeleteElements_Ok_inv container s s' :
  STLDeleteElements container s = Ok ((), s') →
  NoDup container ∧ ∀ p, p ∈ container → is_live s p.
Proof.
  revert s. induction container as [|q rest IH]; intros s.
  - intros _. split; [constructor|]. intros p Hp. by apply elem_of_nil in Hp.
  - rewrite STLDeleteElements_cons.
    destruct (delete_ q s) as [[[] s1]|] eqn:Hdel; [|done].
    destruct (heap s !! q) as [hq|] eqn:Hq.
    2:{ by rewrite delete_dead in Hdel. }
    apply exec_Ok in Hdel. rewrite (delete_run _ _ _ Hq) in Hdel.
    injection Hdel as <-. intros [Hnd Hlive]%IH. split.
    + apply NoDup_cons. split; [|done]. intros [hq' Hq']%Hlive.
      simpl in Hq'. by rewrite lookup_delete_eq in Hq'.
    + intros p [->|[hp Hp]%Hlive]%elem_of_cons; [by exists hq|].
      simpl in Hp. apply lookup_delete_Some in Hp as [_ Hp]. by exists hp.
Qed.

Section Sequences.
Variable platform : Platform.

(** X1.  [GetHandle] answers for the launch helper, never for the
    descriptor: on an object without a helper it aborts (the first [DCHECK]
    in a debug build, the null dereference otherwise), also right after
    [SetHandle]; on an object with a helper it returns the helper's handle,
    and a debug build refuses a null one. *)
Theorem GetHandle_answers_for_the_launcher s this h launcher_handle :
  heap s !! this = Some h →
  GetHandle platform this launcher_handle s
  = match child_process_ h with
    | None =>
      Aborted (if DCHECK_IS_ON platform then DCHECK_FAILURE
               else NULL_DEREFERENCE)
    | Some _ =>
      if DCHECK_IS_ON platform
         && (launcher_handle =? kNullProcessHandle)%Z
      then Aborted DCHECK_FAILURE
      else Ok (launcher_handle, s)
    end
  ∧ ∀ handle,
      match (SetHandle this handle
             ≫= λ _, GetHandle platform this launcher_handle) s with
      | Ok (answer, _) =>
        answer = launcher_handle ∧ is_Some (child_process_ h)
      | Aborted _ => True
      end.
Proof.
  intros Hh.
  assert (∀ s0 h0, heap s0 !! this = Some h0 →
    GetHandle platform this launcher_handle s0
    = match child_process_ h0 with
      | None =>
        Aborted (if DCHECK_IS_ON platform then DCHECK_FAILURE
                 else NULL_DEREFERENCE)
      | Some _ =>
        if DCHECK_IS_ON platform
           && (launcher_handle =? kNullProcessHandle)%Z
        then Aborted DCHECK_FAILURE
        else Ok (launcher_handle, s0)
      end) as Hrun.
  { intros s0 h0 H0. unfold GetHandle. mrun H0.
    destruct (child_process_ h0), (DCHECK_IS_ON platform); simpl; try done;
      rewrite ?negb_involutive; by destruct (_ =? _)%Z. }
  split; [by apply Hrun|]. intros handle.
  rewrite (seq_run _ _ _ _ (SetHandle_run _ _ _ handle Hh)).
  erewrite Hrun by apply lookup_insert_eq. simpl.
  destruct (child_process_ h); [|done].
  by destruct (DCHECK_IS_ON platform && _).
Qed.

(** X2.  [SetName] and [SetHandle] commute, and [GetData] reads back what
    both stored, with the kind and the id of the object untouched; none of
    the three records an effect or changes the registry. *)
Theorem descriptor_round_trip s this h name handle :
  heap s !! this = Some h →
  let d := {| ChildProcessData.type := ChildProcessData.type (data_ h);
              ChildProcessData.name := name;
              ChildProcessData.id := ChildProcessData.id (data_ h);
              ChildProcessData.handle := handle |} in
  let s' := updated_after s this h (set_data h d) [] in
  (SetName this name ≫= λ _, SetHandle this handle ≫= λ _, GetData this) s
    = Ok (d, s')
  ∧ (SetHandle this handle ≫= λ _, SetName this name ≫= λ _, GetData this) s
    = Ok (d, s')
  ∧ trace s' = trace s
  ∧ GetIterator s' = GetIterator s.
Proof.
  intros Hh d s'. subst d s'.
  assert (∀ h1 h2,
    updated_after (updated_after s this h h1 []) this h1 h2 []
    = updated_after s this h h2 []) as Hupd.
  { intros h1 h2. unfold updated_after. simpl.
    by rewrite insert_insert_eq, app_nil_r. }
  split; [|split; [|split]].
  - rewrite (seq_run _ _ _ _ (SetName_run _ _ _ name Hh)).
    erewrite seq_run by (apply SetHandle_run, lookup_insert_eq).
    rewrite Hupd. erewrite GetData_run by apply lookup_insert_eq. done.
  - rewrite (seq_run _ _ _ _ (SetHandle_run _ _ _ handle Hh)).
    erewrite seq_run by (apply SetName_run, lookup_insert_eq).
    rewrite Hupd. erewrite GetData_run by apply lookup_insert_eq. done.
  - simpl. by rewrite app_nil_r.
  - done.
Qed.

(** X3.  A notification carries the descriptor as it is when the call is
    made: after [SetName], [OnChannelConnected] posts the "connected"
    notification with the new name, and then calls the delegate with the
    peer's process id. *)
Theorem notification_carries_current_descriptor s this h name peer_pid :
  heap s !! this = Some h →
  let h' := set_data h (ChildProcessData.with_name (data_ h) name) in
  exec (SetName this name ≫= λ _, OnChannelConnected this peer_pid) s
  = Ok (updated_after s this h h'
          [PostNotification NOTIFICATION_CHILD_PROCESS_HOST_CONNECTED
             (ChildProcessData.with_name (data_ h) name);
           CallDelegate (delegate_ h)
             (Delegate_OnChannelConnected peer_pid)]).
Proof.
  intros Hh h'. subst h'.
  rewrite (seq_exec _ _ _ _ (SetName_run _ _ _ name Hh)).
  erewrite OnChannelConnected_run by apply lookup_insert_eq.
  unfold updated_after, after_effects. simpl. by rewrite app_nil_r.
Qed.

(** X5.  On a live object [OnChildDisconnected] aborts in one case only: a
    build with [DCHECK]s and a descriptor without a handle.  In particular a
    release build runs it on such an object, and no build dereferences a
    missing launch helper here. *)
Theorem OnChildDisconnected_aborts_only_without_handle s this h os :
  heap s !! this = Some h →
  match exec (OnChildDisconnected platform this os) s with
  | Aborted why =>
    why = DCHECK_FAILURE ∧ DCHECK_IS_ON platform = true
    ∧ ChildProcessData.handle (data_ h) = kNullProcessHandle
  | Ok _ => dcheck_handle platform h
  end.
Proof.
  intros Hh. rewrite (OnChildDisconnected_run _ _ _ _ _ Hh).
  unfold dcheck_handle.
  destruct (DCHECK_IS_ON platform); simpl; [|done].
  by destruct (Z.eqb_spec (ChildProcessData.handle (data_ h))
                 kNullProcessHandle).
Qed.

(** X6.  The two methods that go through [child_process_] need [Launch]
    first: on an object without a launch helper
    [SetTerminateChildOnShutdown] and [OnProcessLaunched] dereference null;
    right after [Launch], [SetTerminateChildOnShutdown] reaches the helper
    and changes nothing else. *)
Theorem launch_helper_needed s this h b launcher_handle cmd_line :
  heap s !! this = Some h →
  child_process_ h = None →
  exec (SetTerminateChildOnShutdown this b) s = Aborted NULL_DEREFERENCE
  ∧ exec (OnProcessLaunched this launcher_handle) s = Aborted NULL_DEREFERENCE
  ∧ exec (Launch platform this cmd_line
          ≫= λ _, SetTerminateChildOnShutdown this b) s
    = Ok (updated_after s this h
            (set_child_process h {| launch_cmd_line := cmd_line |})
            (launch_effects platform h cmd_line
             ++ [LauncherSetTerminateChildOnShutdown b])).
Proof.
  intros Hh Hnone. split; [|split].
  - mrun Hh. by rewrite Hnone.
  - mrun Hh. by rewrite Hnone.
  - rewrite (seq_exec _ _ _ _ (Launch_run platform _ _ _ cmd_line Hh)).
    erewrite SetTerminateChildOnShutdown_run;
      [|apply lookup_insert_eq|reflexivity].
    unfold updated_after, after_effects.
    cbn [heap trace g_child_process_list last_unique_child_id].
    by rewrite fmap_app, app_assoc.
Qed.

(** X7.  [OnChildDisconnected] never leaves an object in place twice: when a
    call returns with the object still there, the next call on it, whatever
    status it gets, posts the terminal notification and deletes the object
    without scheduling another re-check. *)
Theorem OnChildDisconnected_waits_once s s1 this h h1 os1 os2 :
  heap s !! this = Some h →
  exec (OnChildDisconnected platform this os1) s = Ok s1 →
  heap s1 !! this = Some h1 →
  ∃ effs,
    exec (OnChildDisconnected platform this os2) s1
    = Ok (deleted_after s1 this h1 (effs ++ terminal_effects platform h1))
    ∧ count is_recheck effs = 0.
Proof.
  intros Hh Hfirst Hh1.
  destruct (OnChildDisconnected_fields _ _ _ _ _ _ _ Hh Hfirst Hh1)
    as (-> & _ & _).
  rewrite (OnChildDisconnected_run _ _ _ _ _ Hh) in Hfirst.
  rewrite (OnChildDisconnected_run _ _ _ _ _ Hh1). simpl.
  destruct (DCHECK_IS_ON platform && _); [done|].
  unfold OnChildDisconnected_leaves, was_alive_sample. simpl.
  destruct (GetTerminationStatus _ os2).1.
  - by exists [].
  - by eexists [_; _; _; _].
  - by eexists [_; _].
  - by eexists [_; _; _; _].
  - by eexists [_].
Qed.

(** X8.  The wait-object callback: compiled to nothing off Windows; on
    Windows, with the exit code [STILL_ACTIVE] it deletes the object and
    records nothing else (no notification, no histogram, no assertion on the
    handle), and with any other exit code, on an object whose re-check was
    scheduled, it ends with the terminal notification and the deletion. *)
Theorem wait_callback_always_destroys s this h exit_code os :
  heap s !! this = Some h →
  (OS_WIN platform = false →
   exec (OnWaitableEventSignaled platform this exit_code os) s = Ok s)
  ∧ (OS_WIN platform = true → exit_code = STILL_ACTIVE →
     exec (OnWaitableEventSignaled platform this exit_code os) s
     = Ok (deleted_after s this h []))
  ∧ (OS_WIN platform = true → exit_code ≠ STILL_ACTIVE →
     dcheck_handle platform h → disconnect_was_alive_ h = true →
     ∃ effs,
       exec (OnWaitableEventSignaled platform this exit_code os) s
       = Ok (deleted_after s this h (effs ++ terminal_effects platform h))).
Proof.
  intros Hh. unfold OnWaitableEventSignaled. split; [|split].
  - by intros ->.
  - intros -> ->. simpl. by apply delete_run.
  - intros -> Hne%Z.eqb_neq Hd Hf. rewrite Hne.
    rewrite (OnChildDisconnected_run _ _ _ _ _ Hh).
    rewrite <- (negb_involutive (_ =? _)%Z), (dcheck_handle_run _ _ Hd).
    unfold OnChildDisconnected_leaves, was_alive_sample. rewrite Hf.
    destruct (GetTerminationStatus _ os).1.
    + by exists [].
    + by eexists [_; _; _; _].
    + by eexists [_; _].
    + by eexists [_; _; _; _].
    + by eexists [_].
Qed.

(** X11.  Leaving the registry is idempotent: after [ShutdownStarted], a
    second [ShutdownStarted] changes nothing, [ForceShutdown] only reaches
    the channel, and the destructor does what it does on a registered
    object. *)
Theorem unregistering_is_idempotent s this h :
  heap s !! this = Some h →
  exec (ShutdownStarted this ≫= λ _, ShutdownStarted this) s
    = exec (ShutdownStarted this) s
  ∧ exec (ShutdownStarted this ≫= λ _, ForceShutdown this) s
    = exec (ForceShutdown this) s
  ∧ exec (ShutdownStarted this ≫= λ _, delete_ this) s
    = exec (delete_ this) s.
Proof.
  intros Hh.
  pose proof (ShutdownStarted_run _ _ _ Hh) as Hfirst.
  assert (heap (unlisted_after s this h []) !! this = Some h) as Hh1 by done.
  rewrite !(seq_exec _ _ _ _ Hfirst).
  rewrite (ShutdownStarted_run _ _ _ Hh1), (ForceShutdown_run _ _ _ Hh1),
    (delete_run _ _ _ Hh1), Hfirst, (ForceShutdown_run _ _ _ Hh),
    (delete_run _ _ _ Hh), !unlisted_twice.
  repeat split; try done.
  unfold deleted_after, unlisted_after. simpl. f_equal. f_equal.
  - apply list_filter_filter_l. done.
  - by rewrite app_nil_r.
Qed.

End Sequences.

Section Registry.
Variable platform : Platform.

(** X12.  In every reachable state the registry holds distinct pointers to
    live objects: no object is enumerated twice, and no destroyed object is
    enumerated at all. *)
Theorem registry_holds_live_objects calls s :
  run platform calls initial = Ok s →
  NoDup (GetIterator s) ∧ ∀ p, p ∈ GetIterator s → is_live s p.
Proof. intros HI%reachable_Inv. split; apply HI. Qed.

(** X16.  In a reachable state, storage that holds no live object is not in
    the registry, so the constructor run on it makes the new object the last
    one enumerated, and enumerated once; the new object has no handle, no
    launch helper and the flag unset, and nothing else changes. *)
Theorem Create_registers_last calls s this type delegate :
  run platform calls initial = Ok s →
  heap s !! this = None →
  let h := constructed type delegate (last_unique_child_id s + 1) in
  let s' := created s this type delegate in
  step platform (Call_Create this type delegate) s = Ok s'
  ∧ (this ∉ GetIterator s)
  ∧ GetIterator s' = GetIterator s ++ [this]
  ∧ NoDup (GetIterator s')
  ∧ heap s' !! this = Some h
  ∧ ChildProcessData.handle (data_ h) = kNullProcessHandle
  ∧ child_process_ h = None
  ∧ disconnect_was_alive_ h = false
  ∧ trace s' = trace s
  ∧ ∀ p, p ≠ this → heap s' !! p = heap s !! p.
Proof.
  intros Hrun Hnone h s'. subst h s'.
  pose proof (reachable_Inv _ _ _ Hrun) as HI.
  split; [|split; [|split; [|split; [|split]]]].
  - unfold step, exec, perform. simpl. unfold mbind, M_bind.
    by rewrite (Create_run _ _ _ _ Hnone).
  - intros [h Hh]%(inv_list_live _ HI). congruence.
  - done.
  - apply (inv_list_nodup _ (Inv_created _ _ type delegate HI Hnone)).
  - apply lookup_insert_eq.
  - repeat split; try done. intros p Hne. simpl.
    by rewrite lookup_insert_ne.
Qed.

(** X13.  Apart from the constructor, which appends, no call adds to the
    registry or reorders it: what is enumerated afterwards is a sublist of
    what was enumerated before, and an entry goes only when it is the object
    the call is made on or when its object is destroyed. *)
Theorem registry_only_shrinks c s s' :
  step platform c s = Ok s' →
  (∀ this type delegate, c ≠ Call_Create this type delegate) →
  GetIterator s' `sublist_of` GetIterator s
  ∧ ∀ q, q ∈ GetIterator s → q ∉ GetIterator s' →
      receiver c = Some q ∨ heap s' !! q = None.
Proof.
  intros Hstep Hnew. unfold GetIterator.
  destruct (step_any _ _ _ _ Hstep)
    as [(this & type & delegate & -> & Hnone & ->)
       |[(-> & Hdel)|(this & h & Hrec & Hh & Hleaves)]].
  - by destruct (Hnew this type delegate).
  - destruct (STLDeleteElements_Ok_inv _ _ _ Hdel) as [Hnd Hlive].
    destruct (STLDeleteElements_run _ s Hnd Hlive)
      as (s2 & new & Hrun & Hgone & _ & Hlist & _).
    rewrite Hrun in Hdel. injection Hdel as ->.
    split; [rewrite Hlist; apply sublist_filter|].
    intros q Hq _. right. by apply Hgone.
  - assert (g_child_process_list s' = g_child_process_list s
            ∨ g_child_process_list s'
              = filter (λ q, q ≠ this) (g_child_process_list s)) as [->| ->].
    { method_cases c Hrec; simpl; auto. }
    + split; [done|]. intros q Hq Hq'. done.
    + split; [apply sublist_filter|].
      intros q Hq Hq'. left. rewrite Hrec. f_equal.
      destruct (decide (q = this)) as [->|Hne]; [done|].
      destruct Hq'. by apply list_elem_of_filter.
Qed.

(** X9.  An object that has left the registry is out of reach of
    [TerminateAll]: in a reachable state, after [ShutdownStarted] or
    [ForceShutdown] on a live object, [TerminateAll] completes, empties the
    registry, and leaves that object live and unchanged. *)
Theorem unregistered_survives_TerminateAll calls s this h :
  run platform calls initial = Ok s →
  heap s !! this = Some h →
  (∃ s2, exec (ShutdownStarted this ≫= λ _, TerminateAll) s = Ok s2
         ∧ heap s2 !! this = Some h ∧ GetIterator s2 = [])
  ∧ (∃ s2, exec (ForceShutdown this ≫= λ _, TerminateAll) s = Ok s2
           ∧ heap s2 !! this = Some h ∧ GetIterator s2 = []).
Proof.
  intros HI%reachable_Inv Hh.
  assert (∀ effs, ∃ s2,
    exec TerminateAll (unlisted_after s this h effs) = Ok s2
    ∧ heap s2 !! this = Some h ∧ GetIterator s2 = []) as Hall.
  { intros effs.
    destruct (STLDeleteElements_run
      (filter (λ q, q ≠ this) (g_child_process_list s))
      (unlisted_after s this h effs))
      as (s2 & new & Hrun & _ & Hkept & Hlist & _).
    { apply NoDup_filter, HI. }
    { intros p [_ Hp]%list_elem_of_filter. by apply HI. }
    exists s2. split; [by apply exec_Ok|]. split.
    - rewrite Hkept; [done|]. by intros [? _]%list_elem_of_filter.
    - unfold GetIterator. rewrite Hlist. simpl. apply filter_not_in_self. }
  split.
  - rewrite (seq_exec _ _ _ _ (ShutdownStarted_run _ _ _ Hh)). apply Hall.
  - rewrite (seq_exec _ _ _ _ (ForceShutdown_run _ _ _ Hh)). apply Hall.
Qed.

(** X10.  A [TerminateAll] that completes leaves the registry empty, so a
    second [TerminateAll] right after it does nothing. *)
Theorem TerminateAll_twice s s1 :
  exec TerminateAll s = Ok s1 →
  GetIterator s1 = [] ∧ exec TerminateAll s1 = Ok s1.
Proof.
  intros Hdel%exec_Ok. unfold TerminateAll in Hdel.
  destruct (STLDeleteElements_Ok_inv _ _ _ Hdel) as [Hnd Hlive].
  destruct (STLDeleteElements_run _ s Hnd Hlive)
    as (s2 & new & Hrun & _ & _ & Hlist & _).
  rewrite Hrun in Hdel. injection Hdel as ->.
  rewrite filter_not_in_self in Hlist.
  split; [done|]. unfold exec, TerminateAll. by rewrite Hlist.
Qed.

End Registry.

Section Frames.
Variable platform : Platform.

(** X17.  The methods that forward to the delegate, the channel or the launch
    helper ([OnMessageReceived], [OnChannelConnected], [OnChannelError],
    [CanShutdown], [Send], [SetTerminateChildOnShutdown]) change no object,
    not the registry and not the id counter; all they leave is what they
    record, caused by the object they are called on. *)
Theorem forwarding_changes_nothing c s s' :
  step platform c s = Ok s' →
  forwards_only c = true →
  heap s' = heap s
  ∧ GetIterator s' = GetIterator s
  ∧ last_unique_child_id s' = last_unique_child_id s
  ∧ ∃ this h effs,
      receiver c = Some this ∧ heap s !! this = Some h
      ∧ trace s' = trace s ++ (event_of this h <$> effs)
      ∧ 1 ≤ length effs ≤ 2.
Proof.
  intros Hstep Hfw.
  destruct (step_any _ _ _ _ Hstep)
    as [(this & type & delegate & -> & Hnone & ->)
       |[(-> & Hdel)|(this & h & Hrec & Hh & Hleaves)]]; [done..|].
  method_cases c Hrec; try done;
    (repeat split; try done; eexists this, h, _;
     repeat split; try done; simpl; lia).
Qed.

(** X18.  A call made on one object changes no other object; an object
    that is there after a call it was not the receiver of is unchanged, or
    was just constructed by the call; and no call but the constructor draws
    a unique id. *)
Theorem calls_touch_only_their_object c s s' :
  step platform c s = Ok s' →
  (∀ this p, receiver c = Some this → p ≠ this →
     heap s' !! p = heap s !! p)
  ∧ (∀ p h', heap s' !! p = Some h' → receiver c ≠ Some p →
       heap s !! p = Some h'
       ∨ ∃ type delegate, c = Call_Create p type delegate)
  ∧ ((∀ this type delegate, c ≠ Call_Create this type delegate) →
     last_unique_child_id s' = last_unique_child_id s).
Proof.
  intros Hstep. split; [|split].
  - intros this p Hrec Hne.
    destruct (step_method_outcome _ _ _ _ _ Hrec Hstep) as (h & Hh & Ho).
    by eapply method_outcome_frame.
  - intros p h' Hp' Hrec.
    destruct (step_object _ _ _ _ _ _ Hstep Hp')
      as [(_ & type & delegate & -> & _)|(h & Hp & [?|[_ ->]])]; eauto.
    done.
  - intros Hnew. destruct (step_any _ _ _ _ Hstep)
      as [(this & type & delegate & -> & Hnone & ->)
         |[(-> & Hdel)|(this & h & Hrec & Hh & Hleaves)]].
    + by destruct (Hnew this type delegate).
    + destruct (STLDeleteElements_Ok_inv _ _ _ Hdel) as [Hnd Hlive].
      destruct (STLDeleteElements_run _ s Hnd Hlive)
        as (s2 & new & Hrun & _ & _ & _ & Hlast & _).
      rewrite Hrun in Hdel. by injection Hdel as ->.
    + method_cases c Hrec; done.
Qed.

End Frames.

(** ** The further properties at sample inputs *)

Lemma GetHandle_answers_for_the_launcher_witness :
  heap (example_state false) !! 7 = Some (example_host false)
  ∧ GetHandle example_posix 7 55 (example_state false)
    = Aborted DCHECK_FAILURE.
Proof.
  split; [vm_compute; reflexivity|].
  refine (proj1 (GetHandle_answers_for_the_launcher example_posix
    (example_state false) 7 (example_host false) 55 _)).
  vm_compute. reflexivity.
Defined.

Lemma descriptor_round_trip_witness :
  heap (example_state false) !! 7 = Some (example_host false)
  ∧ (SetName 7 "plugin" ≫= λ _, SetHandle 7 66 ≫= λ _, GetData 7)
      (example_state false)
    = Ok ({| ChildProcessData.type := 3; ChildProcessData.name := "plugin";
             ChildProcessData.id := 1; ChildProcessData.handle := 66 |},
          updated_after (example_state false) 7 (example_host false)
            (set_data (example_host false)
               {| ChildProcessData.type := 3;
                  ChildProcessData.name := "plugin";
                  ChildProcessData.id := 1;
                  ChildProcessData.handle := 66 |}) []).
Proof.
  split; [vm_compute; reflexivity|].
  refine (proj1 (descriptor_round_trip (example_state false) 7
    (example_host false) "plugin" 66 _)).
  vm_compute. reflexivity.
Defined.

Lemma notification_carries_current_descriptor_witness :
  heap (example_state false) !! 7 = Some (example_host false)
  ∧ exec (SetName 7 "plugin" ≫= λ _, OnChannelConnected 7 4321)
      (example_state false)
    = Ok (updated_after (example_state false) 7 (example_host false)
            (set_data (example_host false)
               (ChildProcessData.with_name (data_ (example_host false))
                  "plugin"))
            [PostNotification NOTIFICATION_CHILD_PROCESS_HOST_CONNECTED
               (ChildProcessData.with_name (data_ (example_host false))
                  "plugin");
             CallDelegate 100 (Delegate_OnChannelConnected 4321)]).
Proof.
  split; [vm_compute; reflexivity|].
  refine (notification_carries_current_descriptor (example_state false) 7
    (example_host false) "plugin" 4321 _).
  vm_compute. reflexivity.
Defined.

Lemma descriptor_fields_kept_witness :
  step example_posix (Call_SetName 7 "plugin") (example_state false)
  = Ok (updated_after (example_state false) 7 (example_host false)
          (set_data (example_host false)
             (ChildProcessData.with_name (data_ (example_host false))
                "plugin")) [])
  ∧ ChildProcessData.type
      (data_ (set_data (example_host false)
                (ChildProcessData.with_name (data_ (example_host false))
                   "plugin")))
    = ChildProcessData.type (data_ (example_host false)).
Proof.
  split; [vm_compute; reflexivity|].
  exact (proj1 (descriptor_fields_kept example_posix
    (Call_SetName 7 "plugin") (example_state false)
    (updated_after (example_state false) 7 (example_host false)
       (set_data (example_host false)
          (ChildProcessData.with_name (data_ (example_host false))
             "plugin")) [])
    7 (example_host false)
    (set_data (example_host false)
       (ChildProcessData.with_name (data_ (example_host false)) "plugin"))
    eq_refl eq_refl eq_refl)).
Defined.

Lemma OnChildDisconnected_aborts_only_without_handle_witness :
  heap example_created !! 7 = Some (constructed 3 100 1)
  ∧ exec (OnChildDisconnected example_posix 7
            (answering TERMINATION_STATUS_PROCESS_CRASHED 11)) example_created
    = Aborted DCHECK_FAILURE
  ∧ ChildProcessData.handle (data_ (constructed 3 100 1)) = kNullProcessHandle.
Proof.
  split; [vm_compute; reflexivity|]. split; [vm_compute; reflexivity|].
  exact (proj2 (proj2 (OnChildDisconnected_aborts_only_without_handle
    example_posix example_created 7 (constructed 3 100 1)
    (answering TERMINATION_STATUS_PROCESS_CRASHED 11) eq_refl))).
Defined.

Lemma launch_helper_needed_witness :
  heap example_created !! 7 = Some (constructed 3 100 1)
  ∧ child_process_ (constructed 3 100 1) = None
  ∧ exec (SetTerminateChildOnShutdown 7 true) example_created
    = Aborted NULL_DEREFERENCE.
Proof.
  split; [vm_compute; reflexivity|]. split; [reflexivity|].
  refine (proj1 (launch_helper_needed example_posix example_created 7
    (constructed 3 100 1) true 55 ["--type=plugin"] _ _)).
  - vm_compute. reflexivity.
  - reflexivity.
Defined.

Lemma OnChildDisconnected_waits_once_witness :
  exec (OnChildDisconnected example_posix 7
          (answering TERMINATION_STATUS_STILL_RUNNING 0)) (example_state false)
  = Ok (updated_after (example_state false) 7 (example_host false)
          (example_host true) [PostDelayedTask 250])
  ∧ ∃ effs,
      exec (OnChildDisconnected example_posix 7
              (answering TERMINATION_STATUS_STILL_RUNNING 0))
        (updated_after (example_state false) 7 (example_host false)
           (example_host true) [PostDelayedTask 250])
      = Ok (deleted_after
              (updated_after (example_state false) 7 (example_host false)
                 (example_host true) [PostDelayedTask 250])
              7 (example_host true)
              (effs ++ terminal_effects example_posix (example_host true)))
      ∧ count is_recheck effs = 0.
Proof.
  split; [vm_compute; reflexivity|].
  refine (OnChildDisconnected_waits_once example_posix (example_state false)
    (updated_after (example_state false) 7 (example_host false)
       (example_host true) [PostDelayedTask 250])
    7 (example_host false) (example_host true)
    (answering TERMINATION_STATUS_STILL_RUNNING 0)
    (answering TERMINATION_STATUS_STILL_RUNNING 0) _ _ _).
  - vm_compute. reflexivity.
  - vm_compute. reflexivity.
  - vm_compute. reflexivity.
Defined.

Lemma wait_callback_always_destroys_witness :
  heap (example_state true) !! 7 = Some (example_host true)
  ∧ exec (OnWaitableEventSignaled example_windows 7 STILL_ACTIVE
            (answering TERMINATION_STATUS_PROCESS_CRASHED 11))
      (example_state true)
    = Ok (deleted_after (example_state true) 7 (example_host true) []).
Proof.
  split; [vm_compute; reflexivity|].
  refine (proj1 (proj2 (wait_callback_always_destroys example_windows
    (example_state true) 7 (example_host true) STILL_ACTIVE
    (answering TERMINATION_STATUS_PROCESS_CRASHED 11) _)) eq_refl eq_refl).
  vm_compute. reflexivity.
Defined.

Lemma unregistered_survives_TerminateAll_witness :
  run example_posix [Call_Create 7 3 100; Call_SetHandle 7 55] initial
    = Ok (example_state false)
  ∧ ∃ s2,
      exec (ShutdownStarted 7 ≫= λ _, TerminateAll) (example_state false)
        = Ok s2
      ∧ heap s2 !! 7 = Some (example_host false) ∧ GetIterator s2 = [].
Proof.
  split; [vm_compute; reflexivity|].
  refine (proj1 (unregistered_survives_TerminateAll example_posix
    [Call_Create 7 3 100; Call_SetHandle 7 55] (example_state false) 7
    (example_host false) _ _)).
  - vm_compute. reflexivity.
  - vm_compute. reflexivity.
Defined.

Lemma TerminateAll_twice_witness :
  exec TerminateAll (example_state false)
    = Ok (deleted_after (example_state false) 7 (example_host false) [])
  ∧ exec TerminateAll
      (deleted_after (example_state false) 7 (example_host false) [])
    = Ok (deleted_after (example_state false) 7 (example_host false) []).
Proof.
  split; [vm_compute; reflexivity|].
  refine (proj2 (TerminateAll_twice (example_state false)
    (deleted_after (example_state false) 7 (example_host false) []) _)).
  vm_compute. reflexivity.
Defined.

Lemma unregistering_is_idempotent_witness :
  heap (example_state false) !! 7 = Some (example_host false)
  ∧ exec (ShutdownStarted 7 ≫= λ _, ShutdownStarted 7) (example_state false)
    = exec (ShutdownStarted 7) (example_state false).
Proof.
  split; [vm_compute; reflexivity|].
  refine (proj1 (unregistering_is_idempotent (example_state false) 7
    (example_host false) _)).
  vm_compute. reflexivity.
Defined.

Lemma registry_holds_live_objects_witness :
  ∃ s,
    run example_posix
      [Call_Create 7 3 100; Call_Create 8 4 100; Call_delete 7;
       Call_Create 7 5 100] initial = Ok s
    ∧ NoDup (GetIterator s).
Proof.
  eexists. split; [vm_compute; reflexivity|].
  refine (proj1 (registry_holds_live_objects example_posix
    [Call_Create 7 3 100; Call_Create 8 4 100; Call_delete 7;
     Call_Create 7 5 100] _ _)).
  vm_compute. reflexivity.
Defined.

Lemma registry_only_shrinks_witness :
  step example_posix (Call_ForceShutdown 7) (example_state false)
  = Ok (unlisted_after (example_state false) 7 (example_host false)
          [ChannelForceShutdown])
  ∧ GetIterator (unlisted_after (example_state false) 7 (example_host false)
                   [ChannelForceShutdown])
    `sublist_of` GetIterator (example_state false).
Proof.
  split; [vm_compute; reflexivity|].
  refine (proj1 (registry_only_shrinks example_posix (Call_ForceShutdown 7)
    (example_state false) _ _ _)).
  - vm_compute. reflexivity.
  - discriminate.
Defined.

Lemma accounts_agree_in_every_execution_witness :
  ∃ s,
    run example_posix
      [Call_Create 7 3 100; Call_SetHandle 7 55;
       Call_OnChildDisconnected 7
         (answering TERMINATION_STATUS_STILL_RUNNING 0);
       Call_OnChildDisconnected 7
         (answering TERMINATION_STATUS_PROCESS_CRASHED 11)] initial = Ok s
    ∧ accounts_agree (ev_effect <$> trace s).
Proof.
  eexists. split; [vm_compute; reflexivity|].
  refine (accounts_agree_in_every_execution example_posix
    [Call_Create 7 3 100; Call_SetHandle 7 55;
     Call_OnChildDisconnected 7 (answering TERMINATION_STATUS_STILL_RUNNING 0);
     Call_OnChildDisconnected 7
       (answering TERMINATION_STATUS_PROCESS_CRASHED 11)] _ _).
  vm_compute. reflexivity.
Defined.

Lemma notifications_only_from_channel_events_witness :
  step example_posix (Call_OnChannelConnected 7 4321) (example_state false)
  = Ok (after_effects (example_state false) 7 (example_host false)
          [PostNotification NOTIFICATION_CHILD_PROCESS_HOST_CONNECTED
             (data_ (example_host false));
           CallDelegate 100 (Delegate_OnChannelConnected 4321)])
  ∧ posted NOTIFICATION_CHILD_PROCESS_HOST_CONNECTED
      (after_effects (example_state false) 7 (example_host false)
         [PostNotification NOTIFICATION_CHILD_PROCESS_HOST_CONNECTED
            (data_ (example_host false));
          CallDelegate 100 (Delegate_OnChannelConnected 4321)])
    = posted NOTIFICATION_CHILD_PROCESS_HOST_CONNECTED (example_state false)
      + 1.
Proof.
  split; [vm_compute; reflexivity|].
  refine (proj1 (notifications_only_from_channel_events example_posix
    (Call_OnChannelConnected 7 4321) (example_state false) _ _)).
  vm_compute. reflexivity.
Defined.

Lemma Create_registers_last_witness :
  run example_posix [] initial = Ok initial
  ∧ heap initial !! 7 = None
  ∧ step example_posix (Call_Create 7 3 100) initial = Ok example_created.
Proof.
  split; [reflexivity|]. split; [vm_compute; reflexivity|].
  refine (proj1 (Create_registers_last example_posix [] initial 7 3 100 _ _)).
  - reflexivity.
  - vm_compute. reflexivity.
Defined.

Lemma forwarding_changes_nothing_witness :
  step example_posix (Call_Send 7 "ping") (example_state false)
  = Ok (after_effects (example_state false) 7 (example_host false)
          [ChannelSend "ping"])
  ∧ heap (after_effects (example_state false) 7 (example_host false)
            [ChannelSend "ping"])
    = heap (example_state false).
Proof.
  split; [vm_compute; reflexivity|].
  refine (proj1 (forwarding_changes_nothing example_posix (Call_Send 7 "ping")
    (example_state false) _ _ _)).
  - vm_compute. reflexivity.
  - reflexivity.
Defined.

Lemma calls_touch_only_their_object_witness :
  step example_posix (Call_SetHandle 7 66) (example_state false)
  = Ok (updated_after (example_state false) 7 (example_host false)
          (set_data (example_host false)
             (ChildProcessData.with_handle (data_ (example_host false)) 66))
          [])
  ∧ last_unique_child_id
      (updated_after (example_state false) 7 (example_host false)
         (set_data (example_host false)
            (ChildProcessData.with_handle (data_ (example_host false)) 66))
         [])
    = last_unique_child_id (example_state false).
Proof.
  split; [vm_compute; reflexivity|].
  refine (proj2 (proj2 (calls_touch_only_their_object example_posix
    (Call_SetHandle 7 66) (example_state false) _ _)) _).
  - vm_compute. reflexivity.
  - discriminate.
Defined.

(** ** The terminal notification, from below *)

Lemma history_deleted_after s this h effs :
  history (ChildProcessData.id (data_ h))
    (trace (deleted_after s this h effs))
  = history (ChildProcessData.id (data_ h)) (trace s) ++ effs ++ [Destroyed].
Proof. simpl. by rewrite history_app, history_own. Qed.

(** The history of a supervisor that is gone is closed: whatever is called
    afterwards adds nothing to it, and its id names no live object again. *)
Lemma gone_stays platform more s' s'' i :
  Inv s' →
  lifecycle (Alive false) (history i (trace s')) = Some Gone →
  run platform more s' = Ok s'' →
  history i (trace s'') = history i (trace s') ∧ no_longer_live s'' i.
Proof.
  intros HI' Hgone Hmore.
  pose proof (run_Inv _ _ _ _ HI' Hmore) as HI''.
  apply run_trace in Hmore as (new & Htr).
  assert (lifecycle (Alive false) (history i (trace s''))
          = lifecycle Gone (history i new)) as Hl.
  { by rewrite Htr, history_app, lifecycle_app, Hgone. }
  destruct (id_live_dec s'' i) as [Hdead|(p & h & Hp & Hid)].
  - split; [|done]. rewrite Htr, history_app.
    destruct (inv_dead _ HI'' _ Hdead) as [Hnil|Hl'].
    + rewrite Htr, history_app in Hnil.
      apply app_eq_nil in Hnil as [Hnil _]. by rewrite Hnil in Hgone.
    + rewrite Hl in Hl'. apply lifecycle_gone in Hl' as ->.
      by rewrite app_nil_r.
  - pose proof (inv_live _ HI'' _ _ Hp) as Hl'. rewrite Hid, Hl in Hl'.
    apply lifecycle_gone in Hl' as Hnil. by rewrite Hnil in Hl'.
Qed.

(** Destructor events of other supervisors, or of none. *)
Lemma count_disconnected_destructors i (new : list Event) :
  Forall (λ e, ev_effect e = Destroyed) new →
  count is_disconnected (history i new) = 0.
Proof.
  induction 1 as [|e new He _ IH]; [done|].
  rewrite history_cons, count_app, IH.
  destruct (decide _); [|done]. by rewrite He.
Qed.

Section Terminal_notification.
Variable platform : Platform.

(** What a call that destroys the object at [this] leaves in the history
    of that supervisor. *)
Lemma step_destroys c s s' this h :
  Inv s →
  heap s !! this = Some h →
  step platform c s = Ok s' →
  heap s' !! this = None →
  lifecycle (Alive false)
    (history (ChildProcessData.id (data_ h)) (trace s')) = Some Gone
  ∧ count is_disconnected
      (history (ChildProcessData.id (data_ h)) (trace s'))
    = (if runs_OnChildDisconnected platform c this then 1 else 0).
Proof.
  intros HI Hh Hstep Hgone.
  pose proof (inv_live _ HI _ _ Hh) as Hl.
  pose proof (lifecycle_alive_alive _ _ _ Hl) as (Hzero & _).
  destruct (step_any _ _ _ _ Hstep)
    as [(p & type & delegate & -> & Hnone & ->)
       |[(-> & Hdel)|(r & hr & Hrec & Hr & Hleaves)]].
  - simpl in Hgone. apply lookup_insert_None in Hgone as [? _]. congruence.
  - destruct (STLDeleteElements_Ok_inv _ _ _ Hdel) as [Hnd Hlive].
    destruct (STLDeleteElements_run _ s Hnd Hlive)
      as (s2 & new & Hrun & _ & Hkept & _ & _ & Htr & Hthis & Hnew).
    rewrite Hrun in Hdel. injection Hdel as ->.
    assert (this ∈ g_child_process_list s) as Hin.
    { destruct (decide (this ∈ g_child_process_list s)) as [|Hout]; [done|].
      rewrite (Hkept _ Hout) in Hgone. congruence. }
    rewrite <- Hthis in Hin.
    apply list_elem_of_fmap in Hin as (e & Hev & He).
    pose proof (proj1 (Forall_forall _ _) Hnew e He) as (he & Hhe & Heq).
    rewrite <- Hev in Hhe, Heq.
    assert (he = h) as -> by congruence.
    assert (history (ChildProcessData.id (data_ h)) new ≠ []) as Hsome.
    { unfold history. intros Hnil%fmap_nil_inv.
      assert (e ∈ filter (λ e0, ev_id e0 = ChildProcessData.id (data_ h)) new)
        as Hfe.
      { apply list_elem_of_filter. split; [by rewrite Heq|done]. }
      rewrite Hnil in Hfe. by apply elem_of_nil in Hfe. }
    assert (Forall (λ e0, ev_effect e0 = Destroyed) new) as Hall.
    { eapply Forall_impl; [exact Hnew|]. by intros e0 (h0 & _ & ->). }
    split.
    + assert (no_longer_live s' (ChildProcessData.id (data_ h))) as Hdead.
      { intros q hq Hq Hid.
        pose proof (STLDeleteElements_shrinks _ _ _ _ _ Hrun Hq) as Hq0.
        assert (q = this) as -> by (eapply (inv_ids_unique _ HI); eauto).
        congruence. }
      pose proof (STLDeleteElements_Inv _ _ _ HI Hrun) as HI2.
      destruct (inv_dead _ HI2 _ Hdead) as [Hnil|HG]; [|done].
      rewrite Htr, history_app in Hnil.
      by apply app_eq_nil in Hnil as [_ Hnil].
    + rewrite Htr, history_app, count_app, Hzero,
        count_disconnected_destructors by done. done.
  - destruct (decide (r = this)) as [->|Hne].
    2:{ destruct (step_method_outcome _ _ _ _ _ Hrec Hstep) as (h0 & _ & Ho).
        rewrite (method_outcome_frame _ _ _ _ _ Ho) in Hgone by done.
        congruence. }
    assert (hr = h) as -> by congruence.
    unfold runs_OnChildDisconnected.
    method_cases c Hrec;
      try (simpl in Hgone; rewrite ?lookup_insert_eq in Hgone; congruence);
      try (match goal with
           | H : context [bool_decide (?x = ?x)] |- _ =>
             rewrite bool_decide_eq_true_2 in H by done;
             simpl in H; discriminate
           end);
      rewrite history_deleted_after, lifecycle_app, Hl, !count_app, Hzero;
      unfold was_alive_sample, terminal_effects, sample, count;
      repeat case_match; simplify_eq/=; done.
Qed.

(** C1, as the code has it.  Over any execution, however often
    [OnChildDisconnected] is called: a supervisor posts the terminal
    CHILD_PROCESS_HOST_DISCONNECTED notification at most once; when it is
    posted, nothing of the kind precedes it, the only thing the supervisor
    does afterwards is run its destructor, and the supervisor is gone.  A
    supervisor destroyed by a call that runs [OnChildDisconnected] on it has
    posted the notification exactly once, then and for the rest of the
    execution; a supervisor destroyed by any other call (a launch completed
    without a handle, [TerminateAll], the destructor called from outside, the
    wait-object callback with [STILL_ACTIVE]) has posted none, then and for
    the rest of the execution. *)
Theorem disconnected_exactly_once_and_last calls s i :
  run platform calls initial = Ok s →
  count is_disconnected (history i (trace s)) ≤ 1
  ∧ (∀ before eff after,
       history i (trace s) = before ++ eff :: after →
       is_disconnected eff = true →
       after = [Destroyed]
       ∧ count is_disconnected before = 0
       ∧ count is_any_notification after = 0
       ∧ no_longer_live s i)
  ∧ ∀ c s' this h more s'',
      heap s !! this = Some h →
      ChildProcessData.id (data_ h) = i →
      step platform c s = Ok s' →
      heap s' !! this = None →
      run platform more s' = Ok s'' →
      count is_disconnected (history i (trace s''))
      = (if runs_OnChildDisconnected platform c this then 1 else 0)
      ∧ no_longer_live s'' i.
Proof.
  intros Hrun.
  destruct (disconnected_is_last _ _ _ i Hrun) as [Hmost Hlast].
  split; [done|]. split; [done|].
  intros c s' this h more s'' Hh <- Hstep Hgone Hmore.
  pose proof (reachable_Inv _ _ _ Hrun) as HI.
  destruct (step_destroys _ _ _ _ _ HI Hh Hstep Hgone) as [Hend Hcount].
  destruct (gone_stays _ _ _ _ _ (step_Inv _ _ _ _ HI Hstep) Hend Hmore)
    as [Hsame Hdead].
  by rewrite Hsame.
Qed.

End Terminal_notification.

Lemma disconnected_exactly_once_and_last_witness :
  ∃ s s',
    run example_posix
      [Call_Create 7 3 100; Call_SetHandle 7 55;
       Call_OnChildDisconnected 7
         (answering TERMINATION_STATUS_STILL_RUNNING 0)] initial = Ok s
    ∧ step example_posix
        (Call_OnChildDisconnected 7
           (answering TERMINATION_STATUS_PROCESS_CRASHED 11)) s = Ok s'
    ∧ heap s !! 7 = Some (example_host true)
    ∧ heap s' !! 7 = None
    ∧ count is_disconnected (history 1 (trace s')) = 1.
Proof.
  eexists. eexists.
  split; [vm_compute; reflexivity|]. split; [vm_compute; reflexivity|].
  split; [vm_compute; reflexivity|]. split; [vm_compute; reflexivity|].
  refine (proj1 (proj2 (proj2 (disconnected_exactly_once_and_last
    example_posix
    [Call_Create 7 3 100; Call_SetHandle 7 55;
     Call_OnChildDisconnected 7 (answering TERMINATION_STATUS_STILL_RUNNING 0)]
    _ 1 _))
    (Call_OnChildDisconnected 7
       (answering TERMINATION_STATUS_PROCESS_CRASHED 11))
    _ 7 (example_host true) [] _ _ _ _ _ _)).
  - vm_compute. reflexivity.
  - vm_compute. reflexivity.
  - reflexivity.
  - vm_compute. reflexivity.
  - vm_compute. reflexivity.
  - reflexivity.
Defined.
